(** * Wisteria CTR Studio: a shallow embedding of the prediction pipeline

    The development follows the repository module by module:

    - [Sampler]        : [SiliconSampling/sampler.py]
    - [BaseLLMClient]  : the helpers the provider clients inherit
    - [DeepSeekClient] : [CTRPrediction/deepseek_client.py]
    - [OpenAIClient]   : [openai_client.py]
    - [LLMClickPredictor] : the batch orchestrator behind [predict_clicks]
    - [Api]            : [api.py]

    Python values are modelled as the code has them: [int] as [Z], [str] as
    [string], [Optional[T]] as [option T], lists as [list], the process
    environment as a [gmap string string].  Python's binary64 [float] and the
    [random.Random] generator are libraries of the interpreter, not code of
    the repository; they are taken as interfaces ([PyFloat], [PyRound],
    [PyRandom]) so that every statement holds for any arithmetic and any
    generator.  To run a function on a concrete input the interfaces are
    instantiated with exact rationals and a linear congruential generator,
    and, for the arithmetic alone, with the kernel's binary64 floats. *)

From Stdlib Require Import ZArith QArith Qround Lia List Ascii String.
From Stdlib Require Floats.
From stdpp Require Import base strings gmap list.
Import ListNotations.

Set Default Proof Using "Type".

(* ===================================================================== *)
(** * Part I: the embedding                                               *)
(* ===================================================================== *)

(** ** Python exceptions and outcomes *)

Inductive PyExn : Type :=
| ValueError (msg : string)
| KeyError (key : string)
| IndexError (msg : string)
| ImportError (msg : string)
| ZeroDivisionError (msg : string)
| HTTPException (status_code : Z) (detail : string)
| OtherException (msg : string).

Inductive outcome (A : Type) : Type :=
| Return (a : A)
| Raise (e : PyExn).
Arguments Return {A} a.
Arguments Raise {A} e.

(** Python truthiness of the values the code tests with [if x:] / [x or y]. *)
Definition truthy_str (s : string) : bool :=
  match s with EmptyString => false | _ => true end.

Definition truthy_opt_str (o : option string) : bool :=
  match o with Some s => truthy_str s | None => false end.

(** [a or b] on [Optional[str]]: the first operand when truthy, else the second. *)
Definition py_or (a b : option string) : option string :=
  if truthy_opt_str a then a else b.

(** [seq[i]] with Python's negative indices. *)
Definition py_index {A : Type} (l : list A) (i : Z) : outcome A :=
  let n := Z.of_nat (length l) in
  let j := (if i <? 0 then i + n else i)%Z in
  if ((0 <=? j) && (j <? n))%Z then
    match nth_error l (Z.to_nat j) with
    | Some x => Return x
    | None => Raise (IndexError "list index out of range")
    end
  else Raise (IndexError "list index out of range").

(** ** The interpreter's floats and random generator, as interfaces *)

(** Arithmetic and comparisons of Python's [float], as far as the
    repository uses them.  [f_of_Z] is [float(k)], [fsum] is the builtin
    [sum] on a list of floats, [fis_zero x] is [x == 0], the test that
    makes [/] raise [ZeroDivisionError].  The two laws hold of IEEE
    arithmetic and of the rationals: the sum of an empty list is 0, and
    [0 <= 0]. *)
Class PyFloat (F : Type) : Type := {
  f_of_Z : Z -> F;
  fadd : F -> F -> F;
  fsub : F -> F -> F;
  fmul : F -> F -> F;
  fdiv : F -> F -> F;
  fle : F -> F -> bool;
  flt : F -> F -> bool;
  fis_zero : F -> bool;
  fsum : list F -> F;
  fsum_nil : fsum [] = f_of_Z 0;
  fle_zero_zero : fle (f_of_Z 0) (f_of_Z 0) = true
}.

(** The float of a non-zero integer is not zero. *)
Class PyFloatOfInt (F : Type) {PF : PyFloat F} : Prop := {
  fis_zero_of_Z : forall z : Z, z <> 0%Z -> fis_zero (f_of_Z z) = false
}.

(** The builtin [round]: [py_round x] is [int(round(x))] and
    [py_round_ndigits x n] is [round(x, n)]. *)
Class PyRound (F : Type) : Type := {
  py_round : F -> Z;
  py_round_ndigits : F -> Z -> F
}.

(** [a / b] on floats. *)
Definition py_truediv {F : Type} {PF : PyFloat F} (a b : F) : outcome F :=
  if fis_zero b then Raise (ZeroDivisionError "float division by zero")
  else Return (fdiv a b).

(** [random.Random]: a generator state with the three draws the sampler
    makes.  [rng_randbelow n] is the index drawn by [rng.choice] on a sequence
    of length [n]; CPython guarantees it is below [n]. *)
Class PyRandom (F : Type) : Type := {
  rng : Type;
  Random_of_int : Z -> rng;
  rng_random : rng -> F * rng;
  rng_gauss : F -> F -> rng -> F * rng;
  rng_randbelow : nat -> rng -> nat * rng;
  rng_randbelow_lt : forall n g, (0 < n)%nat -> (fst (rng_randbelow n g) < n)%nat
}.

(** ** SiliconSampling/sampler.py *)

Module Sampler.
Section WithInterpreter.
Context {F : Type} {PF : PyFloat F} {PRd : PyRound F} {PR : PyRandom F}.

(** Configuration objects of the identity bank (the parsed JSON).  A key
    read with [cfg.get(k, default)] is an [option]; a missing list is []. *)
Record CategoricalCfg : Type := {
  cat_values : list string;
  cat_probs : option (list F)
}.

Record IntNormalCfg : Type := {
  n_mean : option F;
  n_std : option F;
  n_min : option F;
  n_max : option F
}.

Record Bucket : Type := {
  b_min : option F;
  b_max : option F;
  b_weight : option F
}.

Record FloatBucketedCfg : Type := { buckets : list Bucket }.

Record RegionItem : Type := {
  city : option string;
  state : option string
}.

Record RegionCfg : Type := { region_values : list RegionItem }.

Record BoolCfg : Type := { p_true : option F }.

Record HealthCfg : Type := {
  h_p_true : option F;
  h_values : list string
}.

(** [bank[k]] raises [KeyError] on a missing key: each entry is optional. *)
Record Bank : Type := {
  bank_gender : option CategoricalCfg;
  bank_age : option IntNormalCfg;
  bank_region : option RegionCfg;
  bank_occupation : option CategoricalCfg;
  bank_annual_salary : option FloatBucketedCfg;
  bank_liability_status : option FloatBucketedCfg;
  bank_is_married : option BoolCfg;
  bank_health_status : option HealthCfg
}.

(** The identity dictionary built by [sample_identity]; ["illness"] is the
    only key that may be absent. *)
Record Identity : Type := {
  gender : string;
  age : Z;
  region : string;
  occupation : string;
  annual_salary : F;
  liability_status : F;
  is_married : bool;
  health_status : bool;
  illness : option string
}.

(** Code that draws from the shared generator and may raise. *)
Definition Rand (A : Type) : Type := rng -> outcome (A * rng).

Definition ret {A : Type} (a : A) : Rand A := fun g => Return (a, g).

Definition raise {A : Type} (e : PyExn) : Rand A := fun _ => Raise e.

Definition bind {A B : Type} (m : Rand A) (k : A -> Rand B) : Rand B :=
  fun g => match m g with
           | Return (a, g') => k a g'
           | Raise e => Raise e
           end.

Definition draw {A : Type} (f : rng -> A * rng) : Rand A :=
  fun g => Return (f g).

Definition lift {A : Type} (o : outcome A) : Rand A :=
  fun g => match o with Return a => Return (a, g) | Raise e => Raise e end.

Local Notation "x <- c1 ;; c2" := (bind c1 (fun x => c2))
  (at level 100, c1 at next level, right associativity).

Definition get_or {A : Type} (o : option A) (default : A) : A :=
  match o with Some a => a | None => default end.

Definition bank_get {A : Type} (o : option A) (key : string) : Rand A :=
  match o with Some a => ret a | None => raise (KeyError key) end.

(** [rng.choice(seq)] *)
Definition rng_choice {A : Type} (seq : list A) : Rand A :=
  match seq with
  | [] => raise (IndexError "Cannot choose from an empty sequence")
  | _ :: _ =>
      i <- draw (rng_randbelow (length seq)) ;;
      lift (py_index seq (Z.of_nat i))
  end.

(** The [for i, w in enumerate(weights)] loop of [_weighted_choice]:
    [Some i] when the loop returns [i], [None] when it runs to its end. *)
Fixpoint weighted_loop (r upto : F) (i : Z) (weights : list F) : option Z :=
  match weights with
  | [] => None
  | w :: rest =>
      let upto := fadd upto w in
      if fle r upto then Some i else weighted_loop r upto (i + 1)%Z rest
  end.

Definition _weighted_choice (weights : list F) : Rand Z :=
  let total := fsum weights in
  if fle total (f_of_Z 0) then raise (ValueError "Sum of weights must be positive")
  else
    u <- draw rng_random ;;
    let r := fmul u total in
    match weighted_loop r (f_of_Z 0) 0%Z weights with
    | Some i => ret i
    | None => ret (Z.of_nat (length weights) - 1)%Z
    end.

Definition _sample_categorical (cfg : CategoricalCfg) : Rand string :=
  let values := cat_values cfg in
  let probs := cat_probs cfg in
  match values with
  | [] => raise (ValueError "categorical values empty")
  | _ :: _ =>
      match probs with
      | None => rng_choice values
      | Some probs =>
          if negb (Nat.eqb (length values) (length probs))
          then raise (ValueError "values and probs length mismatch")
          else
            idx <- _weighted_choice probs ;;
            lift (py_index values idx)
      end
  end.

(** builtin [min] / [max] on two arguments: the first one unless the second
    is strictly smaller / larger. *)
Definition py_min (a b : F) : F := if flt b a then b else a.
Definition py_max (a b : F) : F := if flt a b then b else a.

(** The [for _ in range(8)] rejection loop: [Some x] when a draw is accepted. *)
Fixpoint rejection_loop (k : nat) (mean std vmin vmax : F) : Rand (option Z) :=
  match k with
  | O => ret None
  | S k' =>
      x <- draw (rng_gauss mean std) ;;
      if fle vmin x && fle x vmax then ret (Some (py_round x))
      else rejection_loop k' mean std vmin vmax
  end.

Definition _sample_int_normal (cfg : IntNormalCfg) : Rand Z :=
  let mean := get_or (n_mean cfg) (f_of_Z 40) in
  let std := get_or (n_std cfg) (f_of_Z 12) in
  let vmin := get_or (n_min cfg) (f_of_Z 0) in
  let vmax := get_or (n_max cfg) (f_of_Z 120) in
  accepted <- rejection_loop 8 mean std vmin vmax ;;
  match accepted with
  | Some v => ret v
  | None =>
      y <- draw (rng_gauss mean std) ;;
      let x := py_max vmin (py_min vmax y) in
      ret (py_round x)
  end.

Definition _sample_float_bucketed (cfg : FloatBucketedCfg) : Rand F :=
  let bs := buckets cfg in
  match bs with
  | [] => raise (ValueError "float_bucketed requires 'buckets'")
  | _ :: _ =>
      let weights := map (fun b => get_or (b_weight b) (f_of_Z 1)) bs in
      idx <- _weighted_choice weights ;;
      b <- lift (py_index bs idx) ;;
      let vmin := get_or (b_min b) (f_of_Z 0) in
      let vmax := get_or (b_max b) vmin in
      let '(vmin, vmax) := if flt vmax vmin then (vmax, vmin) else (vmin, vmax) in
      u <- draw rng_random ;;
      ret (fadd (fmul u (fsub vmax vmin)) vmin)
  end.

Definition _sample_region (cfg : RegionCfg) : Rand string :=
  let values := region_values cfg in
  match values with
  | [] => raise (ValueError "region.values empty")
  | _ :: _ =>
      item <- rng_choice values ;;
      let city := get_or (city item) "Unknown" in
      let state := get_or (state item) "" in
      if truthy_str state then ret (city +:+ ", " +:+ state)
      else ret city
  end.

(** [_sample_bool(cfg, rng)] reads one key of [cfg], ["p_true"], which is
    the argument here: the function is called on the [is_married] and on
    the [health_status] configuration. *)
Definition _sample_bool (p : option F) : Rand bool :=
  let p_true := get_or p (fdiv (f_of_Z 1) (f_of_Z 2)) in
  u <- draw rng_random ;;
  ret (flt u p_true).

(** [str.lower] on ASCII letters. *)
Definition ascii_lower (c : ascii) : ascii :=
  let n := nat_of_ascii c in
  if (65 <=? n)%nat && (n <=? 90)%nat then ascii_of_nat (n + 32) else c.

Fixpoint str_lower (s : string) : string :=
  match s with
  | EmptyString => EmptyString
  | String c s' => String (ascii_lower c) (str_lower s')
  end.

Definition _sample_health (cfg : HealthCfg) : Rand (bool * option string) :=
  has_condition <- _sample_bool (h_p_true cfg) ;;
  if has_condition : bool then
    let values :=
      List.filter (fun v => negb (String.eqb (str_lower v) "none")) (h_values cfg) in
    match values with
    | [] => ret (has_condition, None)
    | _ :: _ =>
        ill <- rng_choice values ;;
        ret (has_condition, Some ill)
    end
  else ret (has_condition, None).

Definition sample_identity (bank : Bank) : Rand Identity :=
  c_gender <- bank_get (bank_gender bank) "gender" ;;
  v_gender <- _sample_categorical c_gender ;;
  c_age <- bank_get (bank_age bank) "age" ;;
  v_age <- _sample_int_normal c_age ;;
  c_region <- bank_get (bank_region bank) "region" ;;
  v_region <- _sample_region c_region ;;
  c_occupation <- bank_get (bank_occupation bank) "occupation" ;;
  v_occupation <- _sample_categorical c_occupation ;;
  c_salary <- bank_get (bank_annual_salary bank) "annual_salary" ;;
  v_salary <- _sample_float_bucketed c_salary ;;
  c_liability <- bank_get (bank_liability_status bank) "liability_status" ;;
  v_liability <- _sample_float_bucketed c_liability ;;
  c_married <- bank_get (bank_is_married bank) "is_married" ;;
  v_married <- _sample_bool (p_true c_married) ;;
  c_health <- bank_get (bank_health_status bank) "health_status" ;;
  h <- _sample_health c_health ;;
  let '(v_health, v_illness) := h in
  ret {| gender := v_gender;
         age := v_age;
         region := v_region;
         occupation := v_occupation;
         annual_salary := py_round_ndigits v_salary 2;
         liability_status := py_round_ndigits v_liability 2;
         is_married := v_married;
         health_status := v_health;
         illness := if v_health && truthy_opt_str v_illness then v_illness else None |}.

(** [[sample_identity(bank, rng) for _ in range(n)]] *)
Fixpoint sample_loop (n : nat) (bank : Bank) : Rand (list Identity) :=
  match n with
  | O => ret []
  | S n' =>
      ident <- sample_identity bank ;;
      rest <- sample_loop n' bank ;;
      ret (ident :: rest)
  end.

(** [random.Random(seed)]: an integer seed fixes the state; with [None] the
    state is seeded from the operating system's entropy, [os_entropy], which
    is an input of the process and not of the call. *)
Definition Random (seed : option Z) (os_entropy : Z) : rng :=
  match seed with
  | Some s => Random_of_int s
  | None => Random_of_int os_entropy
  end.

Definition sample_identities (n : Z) (bank : Bank) (seed : option Z)
    (os_entropy : Z) : outcome (list Identity) :=
  let g := Random seed os_entropy in
  match sample_loop (Z.to_nat n) bank g with
  | Return (ids, _) => Return ids
  | Raise e => Raise e
  end.

End WithInterpreter.
Arguments CategoricalCfg F : clear implicits.
Arguments IntNormalCfg F : clear implicits.
Arguments Bucket F : clear implicits.
Arguments FloatBucketedCfg F : clear implicits.
Arguments BoolCfg F : clear implicits.
Arguments HealthCfg F : clear implicits.
Arguments Bank F : clear implicits.
Arguments Identity F : clear implicits.
End Sampler.

(** ** The provider clients' world: environment, vendor SDK, event log *)

(** One element of the [messages] argument: [{"role": r, "content": c}]. *)
Record Message : Type := {
  role : string;
  content : string
}.

(** A vendor SDK client object, [OpenAI(...)] or [AsyncOpenAI(...)], with
    the keyword arguments it was built from ([None] when not passed). *)
Record VendorClient : Type := {
  vc_async : bool;
  vc_api_key : option string;
  vc_base_url : option string
}.

Inductive Endpoint : Type :=
| ChatCompletions   (* client.chat.completions.create *)
| Responses.        (* client.responses.create *)

(** A call on the vendor client, by its keyword arguments.  [kw_model] is
    the value passed for [model=]; the other fields are [None] when the
    keyword is not passed at the call site. *)
Record ApiCall : Type := {
  endpoint : Endpoint;
  kw_model : option string;
  kw_messages : option (list Message);
  kw_input : option string;
  kw_temperature : option Q;
  kw_stream : option bool
}.

(** What the code cannot decide: the process environment and the vendor.
    [sdk_new vc = Some e] when importing the SDK or building [vc] raises
    [e]; [api_call vc c] is the text read out of the vendor's answer
    ([response.choices[0].message.content], [r.output_text]) or the
    exception raised on the way: transport failure, timeout, non-2xx
    status, or an envelope without the expected fields. *)
Record World : Type := {
  environ : gmap string string;
  sdk_new : VendorClient -> option string;
  api_call : VendorClient -> ApiCall -> outcome (option string)
}.

(** Observable steps of a prediction. *)
Inductive Event : Type :=
| EvNewClient (vc : VendorClient)
| EvApiCall (vc : VendorClient) (c : ApiCall)
| EvFallback (reason : string).

(** A computation that appends to the event log. *)
Definition Eff (A : Type) : Type := (A * list Event)%type.

Module EffMonad.
Definition ret {A : Type} (a : A) : Eff A := (a, []).

Definition bind {A B : Type} (m : Eff A) (k : A -> Eff B) : Eff B :=
  let '(a, t1) := m in
  let '(b, t2) := k a in
  (b, t1 ++ t2).

Definition tell (e : Event) : Eff unit := (tt, [e]).
End EffMonad.

Definition value {A : Type} (m : Eff A) : A := fst m.
Definition trace {A : Type} (m : Eff A) : list Event := snd m.

(** What the provider clients take from their base class, whose file
    base_client.py is not among the sources, left open: the profile type,
    the Mock Oracle's decision on one profile (a pure function of the ad
    text and the profile, spec section 4.4), the prompt renderer (section
    4.1) and the search for a JSON array in the text the vendor returned
    (section 4.3). *)
Class BaseEnv : Type := {
  Profile : Type;
  mock_decide : string -> Profile -> bool;
  _build_prompt : string -> list Profile -> string -> string;
  locate_array : string -> option (list Z)
}.

(** ** base_client.py *)

Module BaseLLMClient.
Import EffMonad.
Local Notation "x <- c1 ;; c2" := (bind c1 (fun x => c2))
  (at level 100, c1 at next level, right associativity).

(** The attributes a client object carries after [__init__]. *)
Record Client : Type := {
  model : option string;
  api_key : option string;
  provider_name : string;
  env_key_name : string;
  base_url : option string
}.

(** [os.getenv(name)] *)
Definition getenv (w : World) (name : string) : option string :=
  environ w !! name.

(** [os.getenv(name, default)] *)
Definition getenv_default (w : World) (name default : string) : string :=
  match environ w !! name with Some v => v | None => default end.

Section WithEnv.
Context {B : BaseEnv}.

(** Modelled from the spec: [BaseLLMClient.has_api_key], whose file
    base_client.py is not among the sources.  A credential is resolvable
    when the explicit override or, failing that, the provider's environment
    variable is a non-empty string. *)
Definition has_api_key (w : World) (self : Client) : bool :=
  truthy_opt_str (py_or (api_key self) (getenv w (env_key_name self))).

(** Modelled from the spec: the Mock Oracle on a batch, one binary decision
    per profile, in the batch's order (base_client.py is not among the
    sources). *)
Definition mock_predictions (ad_text : string) (chunk : list Profile) : list Z :=
  map (fun p => Z.b2z (mock_decide ad_text p)) chunk.

(** Modelled from the spec: [BaseLLMClient._fallback_to_mock], the batch
    served by the Mock Oracle and tagged with the failure reason. *)
Definition _fallback_to_mock (ad_text : string) (chunk : list Profile)
    (reason : string) : Eff (list Z) :=
  _ <- tell (EvFallback reason) ;;
  ret (mock_predictions ad_text chunk).

(** Coercion of an array element to a binary decision. *)
Definition coerce_decision (x : Z) : Z := if (x =? 0)%Z then 0%Z else 1%Z.

(** Modelled from the spec: [BaseLLMClient._parse_and_validate_response]
    (section 4.3).  The array found in the text is coerced to 0/1, cut to
    the batch's size when longer and completed with the Mock Oracle's
    decisions of the missing profiles when shorter; without an array the
    whole batch falls back, tagged "response malformed". *)
Definition _parse_and_validate_response (content : option string)
    (chunk : list Profile) (ad_text : string) (label : string) : Eff (list Z) :=
  match content ≫= locate_array with
  | None => _fallback_to_mock ad_text chunk (label +:+ " response malformed")
  | Some arr =>
      let decisions := take (length chunk) (map coerce_decision arr) in
      ret (decisions ++ drop (length decisions) (mock_predictions ad_text chunk))
  end.

End WithEnv.
End BaseLLMClient.

(** ** CTRPrediction/deepseek_client.py *)

Module DeepSeekClient.
Import EffMonad BaseLLMClient.
Local Notation "x <- c1 ;; c2" := (bind c1 (fun x => c2))
  (at level 100, c1 at next level, right associativity).

Definition __init__ (w : World) (model : option string) (api_key : option string)
    : Client :=
  {| model := model;
     api_key := api_key;
     provider_name := "deepseek";
     env_key_name := "DEEPSEEK_API_KEY";
     base_url := Some (getenv_default w "DEEPSEEK_API_BASE" "https://api.deepseek.com") |}.

(** The body shared by [_get_client] and [_get_async_client]: every
    exception of the import or of the constructor is re-raised as
    [ImportError]. *)
Definition get_client (w : World) (self : Client) (is_async : bool)
    (what : string) : Eff (outcome VendorClient) :=
  let vc := {| vc_async := is_async;
               vc_api_key := py_or (api_key self) (getenv w (env_key_name self));
               vc_base_url := base_url self |} in
  _ <- tell (EvNewClient vc) ;;
  match sdk_new w vc with
  | None => ret (Return vc)
  | Some e => ret (Raise (ImportError (what +:+ " import failed: " +:+ e)))
  end.

Definition _get_client (w : World) (self : Client) : Eff (outcome VendorClient) :=
  get_client w self false "OpenAI".

Definition _get_async_client (w : World) (self : Client) : Eff (outcome VendorClient) :=
  get_client w self true "AsyncOpenAI".

Definition _create_messages (prompt : string) : list Message :=
  [ {| role := "system";
       content := "You are a precise decision engine that outputs strict JSON." |};
    {| role := "user"; content := prompt |} ].

(** [client.chat.completions.create(model=..., messages=..., temperature=0.0,
    stream=False)] followed by [response.choices[0].message.content]. *)
Definition chat_call (self : Client) (prompt : string) : ApiCall :=
  {| endpoint := ChatCompletions;
     kw_model := py_or (model self) (Some "deepseek-chat");
     kw_messages := Some (_create_messages prompt);
     kw_input := None;
     kw_temperature := Some 0%Q;
     kw_stream := Some false |}.

Definition create (w : World) (client : VendorClient) (c : ApiCall)
    : Eff (outcome (option string)) :=
  _ <- tell (EvApiCall client c) ;;
  ret (api_call w client c).

Section WithEnv.
Context {B : BaseEnv}.

Definition predict_chunk (w : World) (self : Client) (ad_text : string)
    (chunk : list Profile) (ad_platform : string) : Eff (list Z) :=
  if negb (has_api_key w self) then
    _fallback_to_mock ad_text chunk "DeepSeek API key missing"
  else
    c <- _get_client w self ;;
    match c with
    | Raise (ImportError _) => _fallback_to_mock ad_text chunk "OpenAI import failed"
    | Raise _ => _fallback_to_mock ad_text chunk "DeepSeek client init failed"
    | Return client =>
        let prompt := _build_prompt ad_text chunk ad_platform in
        r <- create w client (chat_call self prompt) ;;
        match r with
        | Raise _ => _fallback_to_mock ad_text chunk "DeepSeek API call failed"
        | Return content =>
            _parse_and_validate_response content chunk ad_text "DeepSeek"
        end
    end.

Definition predict_chunk_async (w : World) (self : Client) (ad_text : string)
    (chunk : list Profile) (ad_platform : string) : Eff (list Z) :=
  if negb (has_api_key w self) then
    _fallback_to_mock ad_text chunk "DeepSeek API key missing"
  else
    c <- _get_async_client w self ;;
    match c with
    | Raise (ImportError _) => _fallback_to_mock ad_text chunk "AsyncOpenAI import failed"
    | Raise _ => _fallback_to_mock ad_text chunk "AsyncDeepSeek client init failed"
    | Return client =>
        let prompt := _build_prompt ad_text chunk ad_platform in
        r <- create w client (chat_call self prompt) ;;
        match r with
        | Raise _ => _fallback_to_mock ad_text chunk "AsyncDeepSeek API call failed"
        | Return content =>
            _parse_and_validate_response content chunk ad_text "AsyncDeepSeek"
        end
    end.

End WithEnv.
End DeepSeekClient.

(** ** openai_client.py *)

Module OpenAIClient.
Import EffMonad BaseLLMClient.
Local Notation "x <- c1 ;; c2" := (bind c1 (fun x => c2))
  (at level 100, c1 at next level, right associativity).

Definition __init__ (model : option string) (api_key : option string) : Client :=
  {| model := model;
     api_key := api_key;
     provider_name := "openai";
     env_key_name := "OPENAI_API_KEY";
     base_url := None |}.

(** The body shared by [_get_client] and [_get_async_client]; no
    [base_url] keyword is passed. *)
Definition get_client (w : World) (self : Client) (is_async : bool)
    (what : string) : Eff (outcome VendorClient) :=
  let vc := {| vc_async := is_async;
               vc_api_key := py_or (api_key self) (getenv w (env_key_name self));
               vc_base_url := None |} in
  _ <- tell (EvNewClient vc) ;;
  match sdk_new w vc with
  | None => ret (Return vc)
  | Some e => ret (Raise (ImportError (what +:+ " import failed: " +:+ e)))
  end.

Definition _get_client (w : World) (self : Client) : Eff (outcome VendorClient) :=
  get_client w self false "OpenAI".

Definition _get_async_client (w : World) (self : Client) : Eff (outcome VendorClient) :=
  get_client w self true "AsyncOpenAI".

Definition _create_messages (prompt : string) : list Message :=
  [ {| role := "system";
       content := "You are a precise decision engine that outputs strict JSON." |};
    {| role := "user"; content := prompt |} ].

(** [client.chat.completions.create(model=self.model, messages=...,
    temperature=0.0)] followed by [resp.choices[0].message.content]. *)
Definition chat_call (self : Client) (prompt : string) : ApiCall :=
  {| endpoint := ChatCompletions;
     kw_model := model self;
     kw_messages := Some (_create_messages prompt);
     kw_input := None;
     kw_temperature := Some 0%Q;
     kw_stream := None |}.

(** [client.responses.create(model=self.model, input=prompt)] followed by
    [r.output_text]. *)
Definition responses_call (self : Client) (prompt : string) : ApiCall :=
  {| endpoint := Responses;
     kw_model := model self;
     kw_messages := None;
     kw_input := Some prompt;
     kw_temperature := None;
     kw_stream := None |}.

Definition create (w : World) (client : VendorClient) (c : ApiCall)
    : Eff (outcome (option string)) :=
  _ <- tell (EvApiCall client c) ;;
  ret (api_call w client c).

Section WithEnv.
Context {B : BaseEnv}.

Definition predict_chunk (w : World) (self : Client) (ad_text : string)
    (chunk : list Profile) (ad_platform : string) : Eff (list Z) :=
  c <- _get_client w self ;;
  match c with
  | Raise (ImportError _) => _fallback_to_mock ad_text chunk "OpenAI import failed"
  | Raise _ => _fallback_to_mock ad_text chunk "OpenAI client init failed"
  | Return client =>
      let prompt := _build_prompt ad_text chunk ad_platform in
      r <- create w client (chat_call self prompt) ;;
      match r with
      | Return content =>
          _parse_and_validate_response content chunk ad_text "OpenAI"
      | Raise _ =>
          (* Try responses API as fallback *)
          r2 <- create w client (responses_call self prompt) ;;
          match r2 with
          | Return content =>
              _parse_and_validate_response content chunk ad_text "OpenAI"
          | Raise _ => _fallback_to_mock ad_text chunk "OpenAI API call failed"
          end
      end
  end.

Definition predict_chunk_async (w : World) (self : Client) (ad_text : string)
    (chunk : list Profile) (ad_platform : string) : Eff (list Z) :=
  c <- _get_async_client w self ;;
  match c with
  | Raise (ImportError _) => _fallback_to_mock ad_text chunk "AsyncOpenAI import failed"
  | Raise _ => _fallback_to_mock ad_text chunk "AsyncOpenAI client init failed"
  | Return client =>
      let prompt := _build_prompt ad_text chunk ad_platform in
      r <- create w client (chat_call self prompt) ;;
      match r with
      | Raise _ => _fallback_to_mock ad_text chunk "AsyncOpenAI API call failed"
      | Return content =>
          _parse_and_validate_response content chunk ad_text "AsyncOpenAI"
      end
  end.

End WithEnv.
End OpenAIClient.

(** ** llm_click_model.py: the orchestrator behind [predict_clicks] *)

Module LLMClickPredictor.
Import EffMonad.
Local Notation "x <- c1 ;; c2" := (bind c1 (fun x => c2))
  (at level 100, c1 at next level, right associativity).

(** Modelled from the spec: the providers of the registry and the
    construction parameters of the predictor (section 6), which api.py
    passes to [LLMClickPredictor(...)]; llm_click_model.py is not among
    the sources. *)
Inductive Provider : Type := OpenAI | DeepSeek.

Record Predictor : Type := {
  provider : Provider;
  model : option string;
  batch_size : Z;
  use_mock : bool;
  use_async : bool;
  api_key : option string
}.

Section WithEnv.
Context {B : BaseEnv}.

(** Modelled from the spec: the batch split of llm_click_model.py, which is
    not among the sources.  Batch [k] is the slice
    [population[k*size : (k+1)*size]]; the last one may be shorter. *)
Definition num_batches (size n : nat) : nat := (n + size - 1) / size.

Definition batches {A : Type} (size : nat) (population : list A) : list (list A) :=
  map (fun k => take size (drop (k * size) population))
      (seq 0 (num_batches size (length population))).

(** Modelled from the spec: the registry from provider to client type. *)
Definition make_client (w : World) (p : Predictor) : BaseLLMClient.Client :=
  match provider p with
  | OpenAI => OpenAIClient.__init__ (model p) (api_key p)
  | DeepSeek => DeepSeekClient.__init__ w (model p) (api_key p)
  end.

(** Modelled from the spec: the synchronous and the concurrent-capable
    path of the selected client (section 4.2). *)
Definition chunk_sync (w : World) (p : Predictor) (ad_text : string)
    (ad_platform : string) (chunk : list Profile) : Eff (list Z) :=
  match provider p with
  | OpenAI => OpenAIClient.predict_chunk w (make_client w p) ad_text chunk ad_platform
  | DeepSeek => DeepSeekClient.predict_chunk w (make_client w p) ad_text chunk ad_platform
  end.

Definition chunk_async (w : World) (p : Predictor) (ad_text : string)
    (ad_platform : string) (chunk : list Profile) : Eff (list Z) :=
  match provider p with
  | OpenAI => OpenAIClient.predict_chunk_async w (make_client w p) ad_text chunk ad_platform
  | DeepSeek => DeepSeekClient.predict_chunk_async w (make_client w p) ad_text chunk ad_platform
  end.

(** Modelled from the spec: sequential mode, one batch at a time, in order,
    results concatenated in order. *)
Fixpoint run_sequential (f : list Profile -> Eff (list Z))
    (bs : list (list Profile)) : Eff (list Z) :=
  match bs with
  | [] => ret []
  | b :: rest =>
      r <- f b ;;
      rs <- run_sequential f rest ;;
      ret (r ++ rs)
  end.

(** Modelled from the spec: concurrent mode.  Every batch is a task;
    [completion] lists the task indices in the order the tasks finish.
    Each finished task stores its result under its own index and adds its
    events to the log; the join reads the store by batch index. *)
Definition complete (tasks : list (Eff (list Z)))
    (store : gmap nat (list Z)) (i : nat) : gmap nat (list Z) :=
  match tasks !! i with
  | Some t => <[i := value t]> store
  | None => store
  end.

Definition task_events (tasks : list (Eff (list Z))) (i : nat) : list Event :=
  match tasks !! i with
  | Some t => trace t
  | None => []
  end.

Definition join (store : gmap nat (list Z)) (n : nat) : list Z :=
  concat (map (fun i => default [] (store !! i)) (seq 0 n)).

Definition run_concurrent (f : list Profile -> Eff (list Z))
    (bs : list (list Profile)) (completion : list nat) : Eff (list Z) :=
  let tasks := map f bs in
  let store := foldl (complete tasks) ∅ completion in
  (join store (length tasks), concat (map (task_events tasks) completion)).

(** Modelled from the spec: [LLMClickPredictor.predict_clicks] (section
    4.5).  In mock mode every batch goes to the Mock Oracle directly. *)
Definition predict_clicks (w : World) (p : Predictor) (completion : list nat)
    (ad_text : string) (population : list Profile) (ad_platform : string)
    : Eff (list Z) :=
  let bs := batches (Z.to_nat (batch_size p)) population in
  if use_mock p then
    ret (concat (map (BaseLLMClient.mock_predictions ad_text) bs))
  else if use_async p then
    run_concurrent (chunk_async w p ad_text ad_platform) bs completion
  else
    run_sequential (chunk_sync w p ad_text ad_platform) bs.

(** The decisions one batch gets in the configured mode: the Mock
    Oracle's in mock mode, else the value of the selected client's path. *)
Definition batch_decisions (w : World) (p : Predictor) (ad_text : string)
    (ad_platform : string) (chunk : list Profile) : list Z :=
  if use_mock p then BaseLLMClient.mock_predictions ad_text chunk
  else if use_async p then value (chunk_async w p ad_text ad_platform chunk)
  else value (chunk_sync w p ad_text ad_platform chunk).

End WithEnv.
End LLMClickPredictor.

(** ** api.py *)

Module Api.
Section WithInterpreter.
Context {F : Type} {PF : PyFloat F} {PRd : PyRound F}.

(** [CTRRequest], after pydantic has checked the field constraints
    ([ad_text] non-empty, [1 <= population_size <= 10000],
    [1 <= batch_size <= 200]). *)
Record CTRRequest : Type := {
  ad_text : string;
  ad_platform : string;
  population_size : Z;
  seed : option Z;
  provider : string;
  model : option string;
  batch_size : Z;
  use_mock : bool;
  use_sync : bool;
  api_key : option string;
  identity_bank_path : option string
}.

Record DetailedResult : Type := {
  id : Z;
  profile : Sampler.Identity F;
  click_prediction : Z
}.

(** [CTRResponse] without its two wall-clock fields, [runtime_seconds] and
    [timestamp]. *)
Record CTRResponse : Type := {
  success : bool;
  ctr : F;
  total_clicks : Z;
  total_identities : Z;
  provider_used : string;
  model_used : string;
  processing_mode : string;
  resp_ad_platform : string;
  detailed_results : option (list DetailedResult)
}.

Definition DEFAULT_IDENTITY_BANK_PATH : string := "data/identity_bank.json".
Definition AVAILABLE_PROVIDERS : list string := ["openai"; "deepseek"].
Definition AVAILABLE_PLATFORMS : list string := ["facebook"; "tiktok"; "amazon"].

(** [x in xs] on a list of strings. *)
Definition py_in (x : string) (xs : list string) : bool :=
  existsb (String.eqb x) xs.

(** Truthiness of an [int]. *)
Definition truthy_int (x : Z) : bool := negb (x =? 0)%Z.

(** [sum(1 for x in clicks if x)] *)
Definition count_clicks (clicks : list Z) : Z :=
  fold_left Z.add (map (fun _ => 1%Z) (List.filter truthy_int clicks)) 0%Z.

Definition compute_ctr (clicks : list Z) : outcome F :=
  match clicks with
  | [] => Return (f_of_Z 0)
  | _ :: _ =>
      py_truediv (f_of_Z (count_clicks clicks)) (f_of_Z (Z.of_nat (length clicks)))
  end.

Definition validate_request (request : CTRRequest) : outcome unit :=
  if negb (py_in (ad_platform request) AVAILABLE_PLATFORMS) then
    Raise (HTTPException 400
      "Invalid ad_platform. Must be one of: ['facebook', 'tiktok', 'amazon']")
  else if negb (py_in (provider request) AVAILABLE_PROVIDERS) then
    Raise (HTTPException 400
      "Invalid provider. Must be one of: ['openai', 'deepseek']")
  else Return tt.

Definition get_default_model (provider : string) : string :=
  if String.eqb provider "openai" then "gpt-4o-mini"
  else if String.eqb provider "deepseek" then "deepseek-chat"
  else "gpt-4o-mini".

(** Keyword arguments of [LLMClickPredictor(...)]. *)
Record PredictorArgs : Type := {
  arg_provider : string;
  arg_model : string;
  arg_batch_size : Z;
  arg_use_mock : bool;
  arg_use_async : bool;
  arg_api_key : option string
}.

(** The collaborators [predict_ctr] calls: the file system, the sampler
    module and the predictor. *)
Record Services : Type := {
  path_exists : string -> bool;
  load_identity_bank : string -> outcome (Sampler.Bank F);
  sample_identities : Z -> Sampler.Bank F -> option Z -> outcome (list (Sampler.Identity F));
  predict_clicks : PredictorArgs -> string -> list (Sampler.Identity F) -> string -> outcome (list Z)
}.

(** The collaborator calls a request has made so far. *)
Inductive Step : Type :=
| StepLoadBank (path : string)
| StepSample (n : Z) (seed : option Z)
| StepPredict (args : PredictorArgs).

(** [str(e)] *)
Definition exn_str (e : PyExn) : string :=
  match e with
  | ValueError m | IndexError m | ImportError m | ZeroDivisionError m
  | OtherException m => m
  | KeyError k => "'" +:+ k +:+ "'"
  | HTTPException _ d => d
  end.

(** The two handlers that close [predict_ctr]:
    [except HTTPException: raise] and
    [except Exception as e: raise HTTPException(500, ...)]. *)
Definition handlers (e : PyExn) : PyExn :=
  match e with
  | HTTPException c d => HTTPException c d
  | _ => HTTPException 500 ("Internal server error: " +:+ exn_str e)
  end.

Definition string_or (a : option string) (b : string) : string :=
  match a with
  | Some s => if truthy_str s then s else b
  | None => b
  end.

(** [enumerate(zip(identities, clicks))] *)
Fixpoint detail_rows (i : Z) (identities : list (Sampler.Identity F))
    (clicks : list Z) : list DetailedResult :=
  match identities, clicks with
  | p :: ps, c :: cs =>
      {| id := i; profile := p; click_prediction := c |} :: detail_rows (i + 1) ps cs
  | _, _ => []
  end.

Definition predict_ctr (sv : Services) (request : CTRRequest)
    (include_details : bool) : outcome CTRResponse * list Step :=
  match validate_request request with
  | Raise e => (Raise (handlers e), [])
  | Return _ =>
      let path := string_or (identity_bank_path request) DEFAULT_IDENTITY_BANK_PATH in
      if negb (path_exists sv path) then
        (Raise (handlers (HTTPException 400 ("Identity bank file not found: " +:+ path))), [])
      else
        match load_identity_bank sv path with
        | Raise e => (Raise (handlers e), [StepLoadBank path])
        | Return bank =>
            let n := population_size request in
            match sample_identities sv n bank (seed request) with
            | Raise e => (Raise (handlers e), [StepLoadBank path; StepSample n (seed request)])
            | Return identities =>
                let model := string_or (model request) (get_default_model (provider request)) in
                let args := {| arg_provider := provider request;
                               arg_model := model;
                               arg_batch_size := batch_size request;
                               arg_use_mock := use_mock request;
                               arg_use_async := negb (use_sync request);
                               arg_api_key := api_key request |} in
                let steps := [StepLoadBank path; StepSample n (seed request); StepPredict args] in
                match predict_clicks sv args (ad_text request) identities (ad_platform request) with
                | Raise e => (Raise (handlers e), steps)
                | Return clicks =>
                    match compute_ctr clicks with
                    | Raise e => (Raise (handlers e), steps)
                    | Return ctr =>
                    (Return {| success := true;
                               ctr := py_round_ndigits ctr 4;
                               total_clicks := fold_left Z.add clicks 0%Z;
                               total_identities := Z.of_nat (length identities);
                               provider_used :=
                                 if use_mock request then "mock" else provider request;
                               model_used :=
                                 if use_mock request then "mock model (no LLM)" else model;
                               processing_mode :=
                                 if use_sync request then "synchronous sequential"
                                 else "asynchronous parallel";
                               resp_ad_platform := ad_platform request;
                               detailed_results :=
                                 if include_details
                                 then Some (detail_rows 0 identities clicks)
                                 else None |},
                     steps)
                    end
                end
            end
        end
  end.

End WithInterpreter.
Arguments CTRResponse F : clear implicits.
Arguments Services F : clear implicits.
End Api.

(** ** Concrete interpreters, to run the embedding *)

(** Exact rationals in the place of binary64. *)
Module QFloat.

Definition round_half_even (x : Q) : Z :=
  let f := Qfloor x in
  match Qcompare (x - inject_Z f) (1 # 2) with
  | Lt => f
  | Gt => (f + 1)%Z
  | Eq => if Z.even f then f else (f + 1)%Z
  end.

Definition round_ndigits (x : Q) (ndigits : Z) : Q :=
  let scale := inject_Z (10 ^ ndigits) in
  Qred (inject_Z (round_half_even (x * scale)) / scale).

Definition lt_bool (x y : Q) : bool := negb (Qle_bool y x).

Definition sum (l : list Q) : Q := fold_left (fun a b => Qred (a + b)) l (inject_Z 0).

Lemma is_zero_inject_Z (z : Z) : z <> 0%Z -> Qeq_bool (inject_Z z) (inject_Z 0) = false.
Proof.
  intros Hz. unfold Qeq_bool, inject_Z. simpl.
  apply Z.eqb_neq. lia.
Qed.

#[export] Instance Q_PyFloat : PyFloat Q := {|
  f_of_Z := inject_Z;
  fadd := fun a b => Qred (a + b);
  fsub := fun a b => Qred (a - b);
  fmul := fun a b => Qred (a * b);
  fdiv := fun a b => Qred (a / b);
  fle := Qle_bool;
  flt := lt_bool;
  fis_zero := fun a => Qeq_bool a (inject_Z 0);
  fsum := sum;
  fsum_nil := eq_refl;
  fle_zero_zero := eq_refl
|}.

#[export] Instance Q_PyFloatOfInt : PyFloatOfInt Q := {|
  fis_zero_of_Z := is_zero_inject_Z
|}.

#[export] Instance Q_PyRound : PyRound Q := {|
  py_round := round_half_even;
  py_round_ndigits := round_ndigits
|}.

End QFloat.

(** A linear congruential generator in the place of the Mersenne Twister. *)
Module Lcg.

Definition modulus : Z := 2147483648.

Definition next (s : Z) : Z := (1103515245 * s + 12345) mod modulus.

Definition uniform (s : Z) : Q := Qred (Qmake s 2147483648).

Definition random (s : Z) : Q * Z := let s' := next s in (uniform s', s').

Definition gauss (mean std : Q) (s : Z) : Q * Z :=
  let s' := next s in
  (Qred (mean + std * (2 * uniform s' - 1)), s').

Definition randbelow (n : nat) (s : Z) : nat * Z :=
  let s' := next s in (Z.to_nat (s' mod Z.of_nat n), s').

Lemma randbelow_lt (n : nat) (s : Z) :
  (0 < n)%nat -> (fst (randbelow n s) < n)%nat.
Proof.
  intros Hn. unfold randbelow. simpl.
  pose proof (Z.mod_pos_bound (next s) (Z.of_nat n) ltac:(lia)) as Hb.
  lia.
Qed.

#[export] Instance Lcg_PyRandom : PyRandom Q := {|
  rng := Z;
  Random_of_int := fun seed => (seed mod modulus)%Z;
  rng_random := random;
  rng_gauss := gauss;
  rng_randbelow := randbelow;
  rng_randbelow_lt := randbelow_lt
|}.

End Lcg.

(** IEEE binary64, the arithmetic Python's [float] has: the kernel's
    primitive floats, with [float(k)] rounding to nearest even and [sum]
    adding from left to right. *)
Module Binary64.

Definition of_Z (z : Z) : PrimFloat.float :=
  FloatOps.SF2Prim (SpecFloat.binary_normalize FloatOps.prec FloatOps.emax z 0 false).

Definition sum (l : list PrimFloat.float) : PrimFloat.float :=
  fold_left PrimFloat.add l (of_Z 0).

#[export] Instance Binary64_PyFloat : PyFloat PrimFloat.float := {|
  f_of_Z := of_Z;
  fadd := PrimFloat.add;
  fsub := PrimFloat.sub;
  fmul := PrimFloat.mul;
  fdiv := PrimFloat.div;
  fle := PrimFloat.leb;
  flt := PrimFloat.ltb;
  fis_zero := fun a => PrimFloat.eqb a (of_Z 0);
  fsum := sum;
  fsum_nil := eq_refl;
  fle_zero_zero := eq_refl
|}.

(** A generator that replays a script of uniform draws ([random()] is 0
    once the script is used up) and always chooses the first element. *)
Definition replay (script : list PrimFloat.float)
    : PrimFloat.float * list PrimFloat.float :=
  match script with
  | [] => (of_Z 0, [])
  | u :: rest => (u, rest)
  end.

#[export] Instance Replay_PyRandom : PyRandom PrimFloat.float := {|
  rng := list PrimFloat.float;
  Random_of_int := fun _ => [];
  rng_random := replay;
  rng_gauss := fun mean _ script => (mean, script);
  rng_randbelow := fun _ script => (0%nat, script);
  rng_randbelow_lt := fun n _ Hn => Hn
|}.

End Binary64.

(** A small identity bank, a Mock Oracle and an array reader, to run the
    clients and the orchestrator. *)
Module Demo.
Import Sampler QFloat Lcg.

Definition bank : Bank Q := {|
  bank_gender := Some {| cat_values := ["Male"; "Female"];
                         cat_probs := Some [1 # 2; 1 # 2] |};
  bank_age := Some {| n_mean := None; n_std := None; n_min := Some (18 # 1); n_max := None |};
  bank_region := Some {| region_values :=
                           [ {| city := Some "Austin"; state := Some "TX" |};
                             {| city := Some "Boston"; state := None |} ] |};
  bank_occupation := Some {| cat_values := ["Nurse"; "Teacher"; "Engineer"];
                             cat_probs := None |};
  bank_annual_salary := Some {| buckets :=
                                  [ {| b_min := Some (20000 # 1); b_max := Some (50000 # 1);
                                       b_weight := Some (3 # 1) |};
                                    {| b_min := Some (50000 # 1); b_max := Some (90000 # 1);
                                       b_weight := None |} ] |};
  bank_liability_status := Some {| buckets :=
                                     [ {| b_min := None; b_max := Some (1000 # 1);
                                          b_weight := None |} ] |};
  bank_is_married := Some {| p_true := None |};
  bank_health_status := Some {| h_p_true := Some (7 # 10);
                                h_values := ["None"; "Asthma"; "Diabetes"] |}
|}.

Definition is_digit (c : ascii) : bool :=
  let n := nat_of_ascii c in (48 <=? n)%nat && (n <=? 57)%nat.

Definition digit (c : ascii) : Z := Z.of_nat (nat_of_ascii c - 48).

Definition push (cur : option Z) (acc : list Z) : list Z :=
  match cur with Some v => v :: acc | None => acc end.

(** Reads the integers that follow an opening bracket, up to the closing
    bracket or the end of the text. *)
Fixpoint scan_array (s : string) (cur : option Z) (acc : list Z) : list Z :=
  match s with
  | EmptyString => rev (push cur acc)
  | String c s' =>
      if is_digit c then scan_array s' (Some (10 * default 0%Z cur + digit c)%Z) acc
      else if Ascii.eqb c "," || Ascii.eqb c " " then scan_array s' None (push cur acc)
      else rev (push cur acc)
  end.

Fixpoint find_array (s : string) : option (list Z) :=
  match s with
  | EmptyString => None
  | String c s' => if Ascii.eqb c "[" then Some (scan_array s' None []) else find_array s'
  end.

#[export] Instance env : BaseEnv := {|
  Profile := Identity Q;
  mock_decide := fun ad_text p => (age p <? 40)%Z;
  _build_prompt := fun ad_text chunk ad_platform => ad_platform +:+ ": " +:+ ad_text;
  locate_array := find_array
|}.

Definition person (a : Z) : Identity Q := {|
  gender := "Female"; age := a; region := "Austin, TX"; occupation := "Nurse";
  annual_salary := 40000 # 1; liability_status := 0 # 1;
  is_married := false; health_status := false; illness := None
|}.

(** No credential anywhere.  The SDK refuses to build a client without a
    key, as the vendor's current SDK does; the vendor would answer a call
    with the one-element array [0]. *)
Definition world_no_key : World := {|
  environ := ∅;
  sdk_new := fun vc =>
    match vc_api_key vc with
    | None => Some "The api_key client option must be set"
    | Some _ => None
    end;
  api_call := fun _ _ => Return (Some "[0]")
|}.

(** The same world with an SDK that builds a client without a key and
    leaves the refusal to the vendor. *)
Definition world_no_key_lenient_sdk : World := {|
  environ := ∅;
  sdk_new := fun _ => None;
  api_call := fun _ _ => Return (Some "[0]")
|}.

(** A credential in the environment; chat completions time out and the
    responses endpoint answers. *)
Definition world_chat_down : World := {|
  environ := {[ "OPENAI_API_KEY" := "sk-test"; "DEEPSEEK_API_KEY" := "sk-test" ]};
  sdk_new := fun _ => None;
  api_call := fun _ c =>
    match endpoint c with
    | ChatCompletions => Raise (OtherException "Request timed out.")
    | Responses => Return (Some "[0, 0]")
    end
|}.

(** A credential in the environment; every vendor call fails. *)
Definition world_vendor_down : World := {|
  environ := {[ "OPENAI_API_KEY" := "sk-test"; "DEEPSEEK_API_KEY" := "sk-test" ]};
  sdk_new := fun _ => None;
  api_call := fun _ _ => Raise (OtherException "Error code: 503")
|}.

(** An OpenAI client without an [api_key] override, the SDK object it
    builds, and a batch of two profiles the Mock Oracle accepts. *)
Definition openai : BaseLLMClient.Client :=
  OpenAIClient.__init__ (Some "gpt-4o-mini") None.

Definition sdk (is_async : bool) (key : option string) : VendorClient :=
  {| vc_async := is_async; vc_api_key := key; vc_base_url := None |}.

Definition young : list (Identity Q) := [person 30; person 20].

(** A credential in the environment; the vendor answers every call with
    the same three-element array. *)
Definition world_up : World := {|
  environ := {[ "OPENAI_API_KEY" := "sk-test"; "DEEPSEEK_API_KEY" := "sk-test" ]};
  sdk_new := fun _ => None;
  api_call := fun _ _ => Return (Some "Sure: [1, 0, 7]")
|}.

(** Five profiles, and a DeepSeek predictor that sends them concurrently in
    batches of two. *)
Definition crowd : list (Identity Q) :=
  [person 30; person 50; person 20; person 60; person 70].

Definition concurrent_deepseek : LLMClickPredictor.Predictor := {|
  LLMClickPredictor.provider := LLMClickPredictor.DeepSeek;
  LLMClickPredictor.model := None;
  LLMClickPredictor.batch_size := 2;
  LLMClickPredictor.use_mock := false;
  LLMClickPredictor.use_async := true;
  LLMClickPredictor.api_key := None
|}.

(** The service layer's collaborators: a file system [fs], the
    demonstration bank in every file, the sampler with entropy 0, and the
    predictor over the world [w] whose concurrent batches finish last
    first. *)
Definition provider_of (name : string) : option LLMClickPredictor.Provider :=
  if String.eqb name "openai" then Some LLMClickPredictor.OpenAI
  else if String.eqb name "deepseek" then Some LLMClickPredictor.DeepSeek
  else None.

Definition services (w : World) (fs : string -> bool) : Api.Services Q := {|
  Api.path_exists := fs;
  Api.load_identity_bank := fun _ => Return bank;
  Api.sample_identities := fun n b seed => sample_identities n b seed 0;
  Api.predict_clicks := fun args ad_text population ad_platform =>
    match provider_of (Api.arg_provider args) with
    | None => Raise (ValueError "Unknown provider")
    | Some prov =>
        let p := {| LLMClickPredictor.provider := prov;
                    LLMClickPredictor.model := Some (Api.arg_model args);
                    LLMClickPredictor.batch_size := Api.arg_batch_size args;
                    LLMClickPredictor.use_mock := Api.arg_use_mock args;
                    LLMClickPredictor.use_async := Api.arg_use_async args;
                    LLMClickPredictor.api_key := Api.arg_api_key args |} in
        let k := length (LLMClickPredictor.batches
                           (Z.to_nat (Api.arg_batch_size args)) population) in
        Return (value (LLMClickPredictor.predict_clicks w p (rev (seq 0 k))
                         ad_text population ad_platform))
    end
|}.

(** A request with an available platform and provider. *)
Definition request : Api.CTRRequest := {|
  Api.ad_text := "Special 0% APR credit card offer for travel rewards";
  Api.ad_platform := "facebook";
  Api.population_size := 4;
  Api.seed := Some 42%Z;
  Api.provider := "openai";
  Api.model := None;
  Api.batch_size := 3;
  Api.use_mock := true;
  Api.use_sync := false;
  Api.api_key := None;
  Api.identity_bank_path := None
|}.

End Demo.

(** ** Vocabulary of the statements *)

Section SamplerVocabulary.
Context {F : Type} {PF : PyFloat F} {PR : PyRandom F}.
Import Sampler.

(** [m] returns from every generator state, with a value satisfying [P]. *)
Definition returns {A : Type} (P : A -> Prop) (m : Rand A) : Prop :=
  forall g, exists a g', m g = Return (a, g') /\ P a.







End SamplerVocabulary.

(** The four prediction paths of the two clients. *)
Inductive Variant : Type :=
| DeepSeekSync
| DeepSeekAsync
| OpenAISync
| OpenAIAsync.

Definition endpoint_eqb (a b : Endpoint) : bool :=
  match a, b with
  | ChatCompletions, ChatCompletions | Responses, Responses => true
  | _, _ => false
  end.

(** Whether the log holds a call on the given endpoint. *)
Definition calls_endpoint (ep : Endpoint) (t : list Event) : bool :=
  existsb (fun ev => match ev with
                     | EvApiCall _ c => endpoint_eqb (endpoint c) ep
                     | _ => false
                     end) t.

(** The two-message exchange of the spec: a system message with the fixed
    instruction, then the prompt as the user message. *)
Definition SYSTEM_INSTRUCTION : string :=
  "You are a precise decision engine that outputs strict JSON.".

Definition two_message_exchange (prompt : string) (messages : list Message) : Prop :=
  length messages = 2%nat
  /\ messages !! 0%nat = Some {| role := "system"; content := SYSTEM_INSTRUCTION |}
  /\ messages !! 1%nat = Some {| role := "user"; content := prompt |}.

Section ClientVocabulary.
Context {B : BaseEnv}.
Import BaseLLMClient.

Definition run (v : Variant) (w : World) (self : Client) (ad_text : string)
    (chunk : list Profile) (ad_platform : string) : Eff (list Z) :=
  match v with
  | DeepSeekSync => DeepSeekClient.predict_chunk w self ad_text chunk ad_platform
  | DeepSeekAsync => DeepSeekClient.predict_chunk_async w self ad_text chunk ad_platform
  | OpenAISync => OpenAIClient.predict_chunk w self ad_text chunk ad_platform
  | OpenAIAsync => OpenAIClient.predict_chunk_async w self ad_text chunk ad_platform
  end.

(** The vendor client a path builds. *)
Definition vendor_client (v : Variant) (w : World) (self : Client) : VendorClient :=
  let key := py_or (api_key self) (getenv w (env_key_name self)) in
  match v with
  | DeepSeekSync => {| vc_async := false; vc_api_key := key; vc_base_url := base_url self |}
  | DeepSeekAsync => {| vc_async := true; vc_api_key := key; vc_base_url := base_url self |}
  | OpenAISync => {| vc_async := false; vc_api_key := key; vc_base_url := None |}
  | OpenAIAsync => {| vc_async := true; vc_api_key := key; vc_base_url := None |}
  end.

(** The vendor calls a path issues for one batch when each of them fails,
    in order. *)
Definition vendor_calls (v : Variant) (self : Client) (prompt : string) : list ApiCall :=
  match v with
  | DeepSeekSync | DeepSeekAsync => [DeepSeekClient.chat_call self prompt]
  | OpenAISync => [OpenAIClient.chat_call self prompt; OpenAIClient.responses_call self prompt]
  | OpenAIAsync => [OpenAIClient.chat_call self prompt]
  end.

(** The reason a path attaches when its vendor calls have failed. *)
Definition failure_tag (v : Variant) : string :=
  match v with
  | DeepSeekSync => "DeepSeek API call failed"
  | DeepSeekAsync => "AsyncDeepSeek API call failed"
  | OpenAISync => "OpenAI API call failed"
  | OpenAIAsync => "AsyncOpenAI API call failed"
  end.

(** The paths that test [has_api_key] before anything else. *)
Definition checks_credential (v : Variant) : bool :=
  match v with
  | DeepSeekSync | DeepSeekAsync => true
  | OpenAISync | OpenAIAsync => false
  end.

End ClientVocabulary.

(** What the spec asks of a vendor call: temperature 0, no streaming. *)
Definition deterministic_call (c : ApiCall) : Prop :=
  kw_temperature c = Some 0%Q /\ kw_stream c <> Some true.

(** A decision is 0 or 1. *)
Definition binary (d : Z) : Prop := d = 0%Z \/ d = 1%Z.

Section OrchestratorVocabulary.
Import LLMClickPredictor.

(** The path the predictor's configuration selects. *)
Definition selected (p : Predictor) : Variant :=
  match provider p, use_async p with
  | OpenAI, false => OpenAISync
  | OpenAI, true => OpenAIAsync
  | DeepSeek, false => DeepSeekSync
  | DeepSeek, true => DeepSeekAsync
  end.

End OrchestratorVocabulary.

Section ApiVocabulary.
Context {F : Type}.
Import Api.

(** The platform and the provider are both among the available ones. *)
Definition valid_choice (request : CTRRequest) : Prop :=
  In (ad_platform request) AVAILABLE_PLATFORMS
  /\ In (provider request) AVAILABLE_PROVIDERS.

(** The identity bank file a request reads. *)
Definition bank_path (request : CTRRequest) : string :=
  string_or (identity_bank_path request) DEFAULT_IDENTITY_BANK_PATH.

(** The request ends in an HTTP 400 error and no collaborator was called:
    the bank was not loaded, nothing was sampled, nothing was predicted. *)
Definition rejected_before_work (r : outcome (CTRResponse F) * list Step) : Prop :=
  exists detail, r = (Raise (HTTPException 400 detail), []).

End ApiVocabulary.

(** ** template_client.py *)

Module TemplateClient.
Import EffMonad BaseLLMClient.
Local Notation "x <- c1 ;; c2" := (bind c1 (fun x => c2))
  (at level 100, c1 at next level, right associativity).

(** The [base_url] line of the template is commented out. *)
Definition __init__ (model : option string) (api_key : option string) : Client :=
  {| model := model;
     api_key := api_key;
     provider_name := "template";
     env_key_name := "TEMPLATE_API_KEY";
     base_url := None |}.

(** [raise NotImplementedError("TODO: Implement _get_client method")]: an
    exception that is not an [ImportError], written [OtherException]. *)
Definition _get_client (w : World) (self : Client) : Eff (outcome VendorClient) :=
  ret (Raise (OtherException "TODO: Implement _get_client method")).

Definition _get_async_client (w : World) (self : Client) : Eff (outcome VendorClient) :=
  ret (Raise (OtherException "TODO: Implement _get_async_client method")).

Definition _create_messages (prompt : string) : list Message :=
  [ {| role := "system";
       content := "You are a precise decision engine that outputs strict JSON." |};
    {| role := "user"; content := prompt |} ].

Section WithEnv.
Context {B : BaseEnv}.

(** The [try] block after the prompt only assigns [response = None] and
    [content = None]; nothing in it raises, so its [except] clause is not
    entered and the parser receives [None]. *)
Definition predict_chunk (w : World) (self : Client) (ad_text : string)
    (chunk : list Profile) (ad_platform : string) : Eff (list Z) :=
  if negb (has_api_key w self) then
    _fallback_to_mock ad_text chunk (provider_name self +:+ " API key missing")
  else
    c <- _get_client w self ;;
    match c with
    | Raise (ImportError _) =>
        _fallback_to_mock ad_text chunk (provider_name self +:+ " import failed")
    | Raise _ =>
        _fallback_to_mock ad_text chunk (provider_name self +:+ " client init failed")
    | Return client =>
        let prompt := _build_prompt ad_text chunk ad_platform in
        _parse_and_validate_response None chunk ad_text (provider_name self)
    end.

Definition predict_chunk_async (w : World) (self : Client) (ad_text : string)
    (chunk : list Profile) (ad_platform : string) : Eff (list Z) :=
  if negb (has_api_key w self) then
    _fallback_to_mock ad_text chunk (provider_name self +:+ " API key missing")
  else
    c <- _get_async_client w self ;;
    match c with
    | Raise (ImportError _) =>
        _fallback_to_mock ad_text chunk ("Async" +:+ provider_name self +:+ " import failed")
    | Raise _ =>
        _fallback_to_mock ad_text chunk
          ("Async" +:+ provider_name self +:+ " client init failed")
    | Return client =>
        let prompt := _build_prompt ad_text chunk ad_platform in
        _parse_and_validate_response None chunk ad_text ("Async" +:+ provider_name self)
    end.

End WithEnv.
End TemplateClient.

(** ** api.py: the batch endpoint *)

Module ApiBatch.
Section WithInterpreter.
Context {F : Type} {PF : PyFloat F} {PRd : PyRound F}.

(** [str(e)] on the exception [predict_ctr] raised; what it prints for an
    [HTTPException] is the web framework's business. *)
Variable str_of_exn : PyExn -> string.

(** [ErrorResponse] without its wall-clock field [timestamp]. *)
Record ErrorResponse : Type := {
  err_success : bool;
  err_error : string
}.

(** An element of the list the endpoint returns. *)
Inductive BatchItem : Type :=
| ItemResponse (r : Api.CTRResponse F)
| ItemError (e : ErrorResponse).

(** One turn of [for req in requests]: the result or the error of
    [predict_ctr(req, include_details=False)] is appended. *)
Definition batch_step (sv : Api.Services F)
    (acc : list BatchItem * list Api.Step) (req : Api.CTRRequest)
    : list BatchItem * list Api.Step :=
  let '(results, steps) := acc in
  match Api.predict_ctr sv req false with
  | (Return result, s) => (results ++ [ItemResponse result], steps ++ s)
  | (Raise e, s) =>
      (results ++ [ItemError {| err_success := false; err_error := str_of_exn e |}],
       steps ++ s)
  end.

Definition predict_ctr_batch (sv : Api.Services F) (requests : list Api.CTRRequest)
    : outcome (list BatchItem) * list Api.Step :=
  if (10 <? length requests)%nat then
    (Raise (HTTPException 400 "Batch size cannot exceed 10 requests"), [])
  else
    let '(results, steps) := fold_left (batch_step sv) requests ([], []) in
    (Return results, steps).

End WithInterpreter.
Arguments BatchItem F : clear implicits.
End ApiBatch.

(** ** Order laws of the float interface *)

(** The facts about comparison and [round] that bound a rounded sample:
    [<] implies [<=], [float] is monotone on integers, and rounding a
    float that lies on one side of an integer gives an integer on the same
    side.  They hold of the rationals, and of binary64 for the integers it
    represents exactly. *)
Class PyFloatOrder (F : Type) {PF : PyFloat F} {PRd : PyRound F} : Prop := {
  flt_fle : forall a b : F, flt a b = true -> fle a b = true;
  fle_of_Z : forall a b : Z, (a <= b)%Z -> fle (f_of_Z a) (f_of_Z b) = true;
  py_round_ge : forall (k : Z) (x : F), fle (f_of_Z k) x = true -> (k <= py_round x)%Z;
  py_round_le : forall (k : Z) (x : F), fle x (f_of_Z k) = true -> (py_round x <= k)%Z
}.

Module QFloatOrder.
Import QFloat.

Lemma lt_bool_le (a b : Q) : lt_bool a b = true -> Qle_bool a b = true.
Proof.
  unfold lt_bool. intros H. apply negb_true_iff in H.
  apply Qle_bool_iff. apply Qlt_le_weak. apply Qnot_le_lt.
  intros Hle. apply Qle_bool_iff in Hle. congruence.
Qed.

Lemma le_bool_inject_Z (a b : Z) : (a <= b)%Z -> Qle_bool (inject_Z a) (inject_Z b) = true.
Proof. intros H. apply Qle_bool_iff. rewrite <- Zle_Qle. exact H. Qed.

Lemma floor_le_round (x : Q) : (Qfloor x <= round_half_even x)%Z.
Proof.
  unfold round_half_even.
  destruct (Qcompare (x - inject_Z (Qfloor x)) (1 # 2)); [destruct (Z.even (Qfloor x)) | |]; lia.
Qed.

Lemma round_ge (k : Z) (x : Q) : Qle_bool (inject_Z k) x = true -> (k <= round_half_even x)%Z.
Proof.
  intros H. apply Qle_bool_iff in H.
  pose proof (Qfloor_resp_le _ _ H) as Hfloor. rewrite Qfloor_Z in Hfloor.
  pose proof (floor_le_round x). lia.
Qed.

Lemma round_le (k : Z) (x : Q) : Qle_bool x (inject_Z k) = true -> (round_half_even x <= k)%Z.
Proof.
  intros H. apply Qle_bool_iff in H.
  pose proof (Qfloor_resp_le _ _ H) as Hfloor. rewrite Qfloor_Z in Hfloor.
  unfold round_half_even.
  destruct (Z.eq_dec (Qfloor x) k) as [Heq | Hne].
  - assert (Hfrac : (x - inject_Z (Qfloor x) <= 0)%Q).
    { rewrite Heq. unfold Qminus. rewrite <- (Qplus_opp_r (inject_Z k)).
      apply Qplus_le_compat; [exact H | apply Qle_refl]. }
    assert (Hlt : (x - inject_Z (Qfloor x) < 1 # 2)%Q).
    { eapply Qle_lt_trans; [exact Hfrac | reflexivity]. }
    rewrite (proj1 (Qlt_alt _ _) Hlt). lia.
  - destruct (Qcompare (x - inject_Z (Qfloor x)) (1 # 2));
      [destruct (Z.even (Qfloor x)) | |]; lia.
Qed.

#[export] Instance Q_PyFloatOrder : PyFloatOrder Q := {|
  flt_fle := lt_bool_le;
  fle_of_Z := le_bool_inject_Z;
  py_round_ge := round_ge;
  py_round_le := round_le
|}.

End QFloatOrder.

(** ** Vocabulary of the further statements *)

Section SamplerVocabulary2.
Context {F : Type} {PF : PyFloat F} {PRd : PyRound F} {PR : PyRandom F}.
Import Sampler.

(** Whenever [m] returns, the value satisfies [P]. *)
Definition ensures {A : Type} (P : A -> Prop) (m : Rand A) : Prop :=
  forall g a g', m g = Return (a, g') -> P a.

(** Every key [sample_identity] reads is in the bank. *)
Definition bank_complete (bank : Bank F) : bool :=
  bool_decide (is_Some (bank_gender bank))
  && bool_decide (is_Some (bank_age bank))
  && bool_decide (is_Some (bank_region bank))
  && bool_decide (is_Some (bank_occupation bank))
  && bool_decide (is_Some (bank_annual_salary bank))
  && bool_decide (is_Some (bank_liability_status bank))
  && bool_decide (is_Some (bank_is_married bank))
  && bool_decide (is_Some (bank_health_status bank)).

(** The region string of a region entry: "City, ST", or the city alone
    when the state is missing or empty; the city defaults to "Unknown". *)
Definition region_string (item : RegionItem) : string :=
  if truthy_str (get_or (state item) "")
  then get_or (city item) "Unknown" +:+ ", " +:+ get_or (state item) ""
  else get_or (city item) "Unknown".

End SamplerVocabulary2.

(** The reasons, the vendor calls and the vendor clients in an event log,
    in order. *)
Definition fallbacks (t : list Event) : list string :=
  flat_map (fun ev => match ev with EvFallback r => [r] | _ => [] end) t.

Definition api_calls (t : list Event) : list (VendorClient * ApiCall) :=
  flat_map (fun ev => match ev with EvApiCall vc c => [(vc, c)] | _ => [] end) t.

Definition clients_built (t : list Event) : list VendorClient :=
  flat_map (fun ev => match ev with EvNewClient vc => [vc] | _ => [] end) t.

(** The reasons a path can attach to a batch. *)
Definition possible_reasons (v : Variant) : list string :=
  match v with
  | DeepSeekSync =>
      ["DeepSeek API key missing"; "OpenAI import failed";
       "DeepSeek API call failed"; "DeepSeek response malformed"]
  | DeepSeekAsync =>
      ["DeepSeek API key missing"; "AsyncOpenAI import failed";
       "AsyncDeepSeek API call failed"; "AsyncDeepSeek response malformed"]
  | OpenAISync =>
      ["OpenAI import failed"; "OpenAI API call failed"; "OpenAI response malformed"]
  | OpenAIAsync =>
      ["AsyncOpenAI import failed"; "AsyncOpenAI API call failed";
       "AsyncOpenAI response malformed"]
  end.

(** The world answers the synchronous and the asynchronous vendor client
    alike: building them fails or succeeds together, and a call returns
    the same through either. *)
Definition async_blind (w : World) : Prop :=
  forall key url c,
    (sdk_new w {| vc_async := false; vc_api_key := key; vc_base_url := url |} = None
     <-> sdk_new w {| vc_async := true; vc_api_key := key; vc_base_url := url |} = None)
    /\ api_call w {| vc_async := false; vc_api_key := key; vc_base_url := url |} c
       = api_call w {| vc_async := true; vc_api_key := key; vc_base_url := url |} c.

Section ApiVocabulary2.
Context {F : Type} {PF : PyFloat F} {PRd : PyRound F}.
Import Api.

(** The three collaborator calls of a request, in the order of the code. *)
Definition planned_steps (request : CTRRequest) : list Step :=
  [StepLoadBank (string_or (identity_bank_path request) DEFAULT_IDENTITY_BANK_PATH);
   StepSample (population_size request) (seed request);
   StepPredict {| arg_provider := provider request;
                  arg_model := string_or (model request)
                                 (get_default_model (provider request));
                  arg_batch_size := batch_size request;
                  arg_use_mock := use_mock request;
                  arg_use_async := negb (use_sync request);
                  arg_api_key := api_key request |}].

Definition is_http (e : PyExn) : bool :=
  match e with HTTPException _ _ => true | _ => false end.

(** No collaborator raises an [HTTPException] of its own. *)
Definition collaborators_raise_no_http (sv : Services F) : Prop :=
  (forall path e, load_identity_bank sv path = Raise e -> is_http e = false)
  /\ (forall n bank seed e, sample_identities sv n bank seed = Raise e -> is_http e = false)
  /\ (forall args ad ids platform e,
        predict_clicks sv args ad ids platform = Raise e -> is_http e = false).

(** What the batch endpoint returns for one request. *)
Definition batch_item (str_of_exn : PyExn -> string) (sv : Services F)
    (req : CTRRequest) : ApiBatch.BatchItem F :=
  match fst (predict_ctr sv req false) with
  | Return result => ApiBatch.ItemResponse result
  | Raise e =>
      ApiBatch.ItemError {| ApiBatch.err_success := false;
                            ApiBatch.err_error := str_of_exn e |}
  end.

End ApiVocabulary2.

(* ===================================================================== *)
(** * Part II: properties                                                 *)
(* ===================================================================== *)

(** ** sampler.py *)

Section SamplerProperties.
Context {F : Type} {PF : PyFloat F} {PRd : PyRound F} {PR : PyRandom F}.
Import Sampler.




Lemma returns_weaken {A : Type} (P Q : A -> Prop) (m : Rand A) :
  (forall a, P a -> Q a) -> returns P m -> returns Q m.
Proof.
  intros HPQ Hm g. destruct (Hm g) as (a & g' & Hrun & Ha).
  exists a, g'. split; [exact Hrun | apply HPQ, Ha].
Qed.

Lemma py_index_in_range {A : Type} (l : list A) (i : Z) :
  (0 <= i < Z.of_nat (length l))%Z -> exists x, py_index l i = Return x.
Proof.
  intros Hi. unfold py_index.
  destruct (Z.ltb_spec i 0) as [Hneg | _]; [lia |].
  destruct (Z.leb_spec 0 i) as [_ | Hneg]; [| lia].
  destruct (Z.ltb_spec i (Z.of_nat (length l))) as [_ | Hge]; [| lia].
  simpl. destruct (nth_error l (Z.to_nat i)) as [x |] eqn:Hnth.
  - exists x. reflexivity.
  - apply nth_error_None in Hnth. lia.
Qed.


Lemma rng_choice_returns {A : Type} (seq : list A) :
  seq <> [] -> returns (fun _ => True) (rng_choice seq).
Proof.
  intros Hne. destruct seq as [| x rest]; [congruence |].
  unfold rng_choice. intros g.
  pose proof (rng_randbelow_lt (length (x :: rest)) g ltac:(simpl; lia)) as Hlt.
  unfold bind, draw. destruct (rng_randbelow (length (x :: rest)) g) as [i g1] eqn:Hdraw.
  simpl in Hlt.
  destruct (py_index_in_range (x :: rest) (Z.of_nat i)) as [y Hy].
  { simpl. lia. }
  exists y, g1. unfold lift. rewrite Hy. split; [reflexivity | exact I].
Qed.

(** The loop of [_weighted_choice] only returns positions it has visited. *)
Lemma weighted_loop_range (r upto : F) (i j : Z) (weights : list F) :
  weighted_loop r upto i weights = Some j ->
  (i <= j < i + Z.of_nat (length weights))%Z.
Proof.
  revert upto i. induction weights as [| w rest IH]; intros upto i Hloop.
  - discriminate.
  - simpl in Hloop. destruct (fle r (fadd upto w)).
    + injection Hloop as <-. simpl length. lia.
    + apply IH in Hloop. simpl length. lia.
Qed.

(** When the guard passes there is at least one weight. *)
Lemma weights_ok_nonempty (weights : list F) :
  fle (fsum weights) (f_of_Z 0) = false -> weights <> [].
Proof.
  intros Hguard ->. rewrite fsum_nil, fle_zero_zero in Hguard. discriminate.
Qed.

Lemma weighted_choice_cases (weights : list F) (g : rng) :
  match _weighted_choice weights g with
  | Raise e =>
      e = ValueError "Sum of weights must be positive"
      /\ fle (fsum weights) (f_of_Z 0) = true
  | Return (i, g') =>
      fle (fsum weights) (f_of_Z 0) = false
      /\ (0 <= i < Z.of_nat (length weights))%Z
      /\ g' = snd (rng_random g)
      /\ (weighted_loop (fmul (fst (rng_random g)) (fsum weights)) (f_of_Z 0) 0 weights = None ->
          i = (Z.of_nat (length weights) - 1)%Z)
  end.
Proof.
  unfold _weighted_choice.
  destruct (fle (fsum weights) (f_of_Z 0)) eqn:Hguard.
  - simpl. split; reflexivity.
  - pose proof (weights_ok_nonempty weights Hguard) as Hne.
    unfold bind, draw. destruct (rng_random g) as [u g1]. simpl.
    destruct (weighted_loop (fmul u (fsum weights)) (f_of_Z 0) 0 weights) as [j |] eqn:Hloop;
      simpl.
    + apply weighted_loop_range in Hloop.
      repeat split; try lia. intros Hnone. discriminate.
    + destruct weights as [| w rest]; [congruence |]. simpl length.
      repeat split; lia.
Qed.



(** *** Every sampler returns on a well-formed bank *)












End SamplerProperties.

(** ** The provider clients *)


(** Unfolds the client construction, the vendor call and the log monad. *)
Ltac eff_unfold :=
  unfold DeepSeekClient._get_client, DeepSeekClient._get_async_client,
    DeepSeekClient.get_client, DeepSeekClient.create,
    OpenAIClient._get_client, OpenAIClient._get_async_client,
    OpenAIClient.get_client, OpenAIClient.create,
    EffMonad.bind, EffMonad.tell, EffMonad.ret;
  simpl.

(** Case analysis on everything a path branches on, innermost first. *)
Ltac path_cases :=
  repeat match goal with
         | |- context [match ?x with _ => _ end] =>
             lazymatch x with
             | context [match _ with _ => _ end] => fail
             | _ => destruct x eqn:?; simpl
             end
         end.

Section ClientProperties.
Context {B : BaseEnv}.
Import BaseLLMClient.

(** C9: for every prompt, [_create_messages] of either provider returns
    exactly two messages: the system message with the fixed instruction,
    then the user message whose content is the prompt. *)
Theorem create_messages_is_two_message_exchange (prompt : string) :
  two_message_exchange prompt (OpenAIClient._create_messages prompt)
  /\ two_message_exchange prompt (DeepSeekClient._create_messages prompt).
Proof. split; (split; [reflexivity | split; reflexivity]). Qed.

Lemma Forall_raise_inv1 (w : World) (vc : VendorClient) (c : ApiCall) (rest : list ApiCall) :
  Forall (fun c => exists e, api_call w vc c = Raise e) (c :: rest) ->
  exists e, api_call w vc c = Raise e.
Proof. intros H. inversion H; assumption. Qed.

(** The Mock Oracle decides every profile of the batch. *)
Lemma length_mock_predictions (ad_text : string) (chunk : list Profile) :
  length (mock_predictions ad_text chunk) = length chunk.
Proof. unfold mock_predictions. apply length_map. Qed.

(** C3, as amended: on each of the four paths, when the credential check
    (where the path has one) passes, the vendor client is built, and every
    vendor call the path issues for the batch raises (the chat-completions
    call and, on OpenAI's synchronous path, the responses call after it),
    the path returns the Mock Oracle's decisions for the whole batch after
    logging a reason that ends in "API call failed".  The path returns a
    value: the error does not reach the caller. *)
Theorem vendor_failure_falls_back_to_mock (v : Variant) (w : World) (self : Client)
    (ad_text : string) (chunk : list Profile) (ad_platform : string) :
  (checks_credential v = true -> has_api_key w self = true) ->
  sdk_new w (vendor_client v w self) = None ->
  Forall (fun c => exists e, api_call w (vendor_client v w self) c = Raise e)
         (vendor_calls v self (_build_prompt ad_text chunk ad_platform)) ->
  run v w self ad_text chunk ad_platform
    = (mock_predictions ad_text chunk,
       EvNewClient (vendor_client v w self)
         :: map (EvApiCall (vendor_client v w self))
                (vendor_calls v self (_build_prompt ad_text chunk ad_platform))
         ++ [EvFallback (failure_tag v)])
  /\ (exists prefix, failure_tag v = prefix +:+ "API call failed")
  /\ length (value (run v w self ad_text chunk ad_platform)) = length chunk.
Proof.
  intros Hkey Hsdk Hcalls.
  assert (Hrun : run v w self ad_text chunk ad_platform
    = (mock_predictions ad_text chunk,
       EvNewClient (vendor_client v w self)
         :: map (EvApiCall (vendor_client v w self))
                (vendor_calls v self (_build_prompt ad_text chunk ad_platform))
         ++ [EvFallback (failure_tag v)])).
  { destruct v; simpl in Hkey, Hsdk, Hcalls |- *.
    - unfold DeepSeekClient.predict_chunk. rewrite (Hkey eq_refl).
      apply Forall_raise_inv1 in Hcalls as [e He].
      eff_unfold. rewrite Hsdk. simpl. rewrite He. reflexivity.
    - unfold DeepSeekClient.predict_chunk_async. rewrite (Hkey eq_refl).
      apply Forall_raise_inv1 in Hcalls as [e He].
      eff_unfold. rewrite Hsdk. simpl. rewrite He. reflexivity.
    - unfold OpenAIClient.predict_chunk.
      inversion Hcalls as [| c1 rest [e1 He1] Hrest]; subst.
      apply Forall_raise_inv1 in Hrest as [e2 He2].
      eff_unfold. rewrite Hsdk. simpl. rewrite He1. simpl. rewrite He2. reflexivity.
    - unfold OpenAIClient.predict_chunk_async.
      apply Forall_raise_inv1 in Hcalls as [e He].
      eff_unfold. rewrite Hsdk. simpl. rewrite He. reflexivity. }
  split; [exact Hrun |]. split.
  - destruct v; simpl.
    + exists "DeepSeek ". reflexivity.
    + exists "AsyncDeepSeek ". reflexivity.
    + exists "OpenAI ". reflexivity.
    + exists "AsyncOpenAI ". reflexivity.
  - rewrite Hrun. simpl. apply length_mock_predictions.
Qed.

(** *** What the shared helpers return and log *)

Lemma parse_length (content : option string) (chunk : list Profile)
    (ad_text label : string) :
  length (value (_parse_and_validate_response content chunk ad_text label)) = length chunk.
Proof.
  unfold _parse_and_validate_response.
  destruct (content ≫= locate_array) as [arr |]; simpl.
  - rewrite length_app, length_drop, length_mock_predictions, length_take, length_map. lia.
  - apply length_mock_predictions.
Qed.

Lemma parse_trace (content : option string) (chunk : list Profile)
    (ad_text label : string) :
  trace (_parse_and_validate_response content chunk ad_text label) = []
  \/ trace (_parse_and_validate_response content chunk ad_text label)
     = [EvFallback (label +:+ " response malformed")].
Proof.
  unfold _parse_and_validate_response.
  destruct (content ≫= locate_array); simpl; auto.
Qed.

Lemma responses_only_on_openai_sync (v : Variant) (w : World) (self : Client)
    (ad_text : string) (chunk : list Profile) (ad_platform : string) :
  v <> OpenAISync ->
  calls_endpoint Responses (trace (run v w self ad_text chunk ad_platform)) = false.
Proof.
  intros Hv. destruct v; try congruence; clear Hv; simpl;
    unfold DeepSeekClient.predict_chunk, DeepSeekClient.predict_chunk_async,
      OpenAIClient.predict_chunk_async, _parse_and_validate_response, _fallback_to_mock;
    eff_unfold; path_cases; reflexivity.
Qed.

(** C4: on OpenAI's synchronous path, once the client is built and the
    chat-completions call has raised, the next step is a call on the
    responses endpoint with the same model and with the same prompt that
    the chat call carried as its user message.  The batch is served by the
    Mock Oracle with the reason "OpenAI API call failed" exactly when that
    second call raises too; when it answers, its text goes to the parser.
    No other path ever calls the responses endpoint. *)
Theorem openai_sync_tries_responses_before_mock (w : World) (self : Client)
    (ad_text : string) (chunk : list Profile) (ad_platform : string) (e : PyExn) :
  let prompt := _build_prompt ad_text chunk ad_platform in
  let vc := vendor_client OpenAISync w self in
  let r := OpenAIClient.predict_chunk w self ad_text chunk ad_platform in
  sdk_new w vc = None ->
  api_call w vc (OpenAIClient.chat_call self prompt) = Raise e ->
  (exists rest,
      trace r = EvNewClient vc
                  :: EvApiCall vc (OpenAIClient.chat_call self prompt)
                  :: EvApiCall vc (OpenAIClient.responses_call self prompt)
                  :: rest)
  /\ endpoint (OpenAIClient.responses_call self prompt) = Responses
  /\ kw_model (OpenAIClient.responses_call self prompt)
     = kw_model (OpenAIClient.chat_call self prompt)
  /\ kw_input (OpenAIClient.responses_call self prompt) = Some prompt
  /\ (kw_messages (OpenAIClient.chat_call self prompt)) ≫= (fun ms => ms !! 1%nat)
     = Some {| role := "user"; content := prompt |}
  /\ (In (EvFallback "OpenAI API call failed") (trace r)
      <-> exists e2, api_call w vc (OpenAIClient.responses_call self prompt) = Raise e2)
  /\ (forall e2, api_call w vc (OpenAIClient.responses_call self prompt) = Raise e2 ->
        r = (mock_predictions ad_text chunk,
             [EvNewClient vc;
              EvApiCall vc (OpenAIClient.chat_call self prompt);
              EvApiCall vc (OpenAIClient.responses_call self prompt);
              EvFallback "OpenAI API call failed"]))
  /\ (forall text, api_call w vc (OpenAIClient.responses_call self prompt) = Return text ->
        value r = value (_parse_and_validate_response text chunk ad_text "OpenAI"))
  /\ (forall v w' self' ad_text' chunk' ad_platform',
        v <> OpenAISync ->
        calls_endpoint Responses (trace (run v w' self' ad_text' chunk' ad_platform')) = false).
Proof.
  intros prompt vc r Hsdk Hchat.
  assert (Hr : r = EffMonad.bind
                     (EffMonad.ret tt, [EvNewClient vc;
                        EvApiCall vc (OpenAIClient.chat_call self prompt);
                        EvApiCall vc (OpenAIClient.responses_call self prompt)])
                     (fun _ =>
                        match api_call w vc (OpenAIClient.responses_call self prompt) with
                        | Return text => _parse_and_validate_response text chunk ad_text "OpenAI"
                        | Raise _ => _fallback_to_mock ad_text chunk "OpenAI API call failed"
                        end)).
  { subst r. unfold OpenAIClient.predict_chunk. eff_unfold.
    fold prompt. change {| vc_async := false;
                           vc_api_key := py_or (api_key self) (getenv w (env_key_name self));
                           vc_base_url := None |} with vc.
    rewrite Hsdk. simpl. rewrite Hchat. simpl.
    destruct (api_call w vc (OpenAIClient.responses_call self prompt)) as [text | e2];
      simpl; [destruct (_parse_and_validate_response text chunk ad_text "OpenAI") |];
      reflexivity. }
  split; [| split; [reflexivity | split; [reflexivity | split; [reflexivity | split; [reflexivity |]]]]].
  - rewrite Hr. unfold EffMonad.bind, EffMonad.ret.
    destruct (match api_call w vc (OpenAIClient.responses_call self prompt) with
              | Return text => _ | Raise _ => _ end) as [b t2].
    exists t2. reflexivity.
  - split; [| split; [| split]].
    + rewrite Hr.
      destruct (api_call w vc (OpenAIClient.responses_call self prompt)) as [text | e2] eqn:Hresp.
      * split.
        -- unfold EffMonad.bind, EffMonad.ret.
           pose proof (parse_trace text chunk ad_text "OpenAI") as Htrace.
           destruct (_parse_and_validate_response text chunk ad_text "OpenAI") as [b t2].
           unfold trace in *. simpl in *.
           destruct Htrace as [-> | ->]; simpl; intros Hin;
             repeat (destruct Hin as [Hin | Hin]; [discriminate Hin |]); contradiction.
        -- intros [e2 He2]. discriminate.
      * split; [intros _; exists e2; reflexivity |].
        intros _. simpl. right. right. right. left. reflexivity.
    + intros e2 He2. rewrite Hr, He2. reflexivity.
    + intros text Htext. rewrite Hr, Htext. unfold EffMonad.bind, EffMonad.ret.
      destruct (_parse_and_validate_response text chunk ad_text "OpenAI"). reflexivity.
    + intros v w' self' ad_text' chunk' ad_platform'.
      apply responses_only_on_openai_sync.
Qed.

(** *** Credentials *)

(** X17: without a resolvable credential both DeepSeek paths stop at the
    credential check: the batch is the Mock Oracle's, the reason is
    "DeepSeek API key missing", no vendor client is built and no call is
    issued. *)
Lemma deepseek_missing_key_falls_back (w : World) (self : Client)
    (ad_text : string) (chunk : list Profile) (ad_platform : string) :
  has_api_key w self = false ->
  DeepSeekClient.predict_chunk w self ad_text chunk ad_platform
    = (mock_predictions ad_text chunk, [EvFallback "DeepSeek API key missing"])
  /\ DeepSeekClient.predict_chunk_async w self ad_text chunk ad_platform
    = (mock_predictions ad_text chunk, [EvFallback "DeepSeek API key missing"]).
Proof.
  intros Hkey.
  unfold DeepSeekClient.predict_chunk, DeepSeekClient.predict_chunk_async.
  rewrite Hkey. split; reflexivity.
Qed.


(** *** Decoding parameters *)


(** X16: every chat-completions call of every path, of either client,
    synchronous or asynchronous, is issued with temperature 0 and without
    asking for streaming. *)
Lemma chat_calls_are_deterministic (v : Variant) (w : World) (self : Client)
    (ad_text : string) (chunk : list Profile) (ad_platform : string) :
  Forall (fun ev => match ev with
                    | EvApiCall _ c => endpoint c = ChatCompletions -> deterministic_call c
                    | _ => True
                    end)
         (trace (run v w self ad_text chunk ad_platform)).
Proof.
  destruct v; simpl;
    unfold DeepSeekClient.predict_chunk, DeepSeekClient.predict_chunk_async,
      OpenAIClient.predict_chunk, OpenAIClient.predict_chunk_async,
      _parse_and_validate_response, _fallback_to_mock;
    eff_unfold; path_cases;
    repeat (apply Forall_cons; split; [| ]); try apply Forall_nil; try exact I;
    try (intros _; split; [reflexivity | discriminate]);
    try (intros Hep; discriminate Hep).
Qed.

End ClientProperties.

(** ** The orchestrator *)

Section OrchestratorProperties.
Context {B : BaseEnv}.
Import BaseLLMClient LLMClickPredictor.


(** *** The batch split *)

Lemma num_batches_covers (size n : nat) : 0 < size -> n <= num_batches size n * size.
Proof.
  intros Hsize. unfold num_batches.
  pose proof (Nat.div_mod (n + size - 1) size ltac:(lia)) as Hdiv.
  pose proof (Nat.mod_upper_bound (n + size - 1) size ltac:(lia)) as Hmod.
  nia.
Qed.

Lemma concat_slices {A : Type} (size m : nat) (l : list A) :
  concat (map (fun k => take size (drop (k * size) l)) (seq 0 m)) = take (m * size) l.
Proof.
  induction m as [| m IH].
  - reflexivity.
  - rewrite seq_S, map_app, concat_app, IH. simpl.
    rewrite app_nil_r, take_take_drop. f_equal. lia.
Qed.

(** Concatenating the batches gives the population back. *)
Lemma batches_concat {A : Type} (size : nat) (population : list A) :
  0 < size -> concat (batches size population) = population.
Proof.
  intros Hsize. unfold batches. rewrite concat_slices.
  apply take_ge, num_batches_covers, Hsize.
Qed.

Lemma length_batches {A : Type} (size : nat) (population : list A) :
  length (batches size population) = num_batches size (length population).
Proof. unfold batches. rewrite length_map, length_seq. reflexivity. Qed.

Lemma batches_lookup {A : Type} (size : nat) (population : list A) (k : nat) (b : list A) :
  batches size population !! k = Some b ->
  b = take size (drop (k * size) population)
  /\ k < num_batches size (length population).
Proof.
  unfold batches. rewrite list_lookup_fmap.
  destruct (seq 0 (num_batches size (length population)) !! k) as [j |] eqn:Hseq;
    [| discriminate].
  apply lookup_seq in Hseq as [-> Hk]. simpl. intros [= <-]. split; [reflexivity | exact Hk].
Qed.

(** Every batch but the last is full, and no batch is longer than [size]. *)
Lemma batches_full {A : Type} (size : nat) (population : list A) (k : nat) (b : list A) :
  0 < size ->
  batches size population !! k = Some b ->
  length b <= size
  /\ (S k < length (batches size population) -> length b = size).
Proof.
  intros Hsize Hb. apply batches_lookup in Hb as [-> Hk].
  rewrite length_take, length_drop. split; [lia |].
  rewrite length_batches. unfold num_batches. intros Hlast.
  pose proof (Nat.div_mod (length population + size - 1) size ltac:(lia)) as Hdiv.
  pose proof (Nat.mod_upper_bound (length population + size - 1) size ltac:(lia)) as Hmod.
  nia.
Qed.

(** Position [i] of a concatenation of chunks of width [size]. *)
Lemma lookup_concat_chunks {A : Type} (size : nat) (ls : list (list A)) (i : nat) :
  0 < size ->
  (forall k l, ls !! k = Some l ->
     length l <= size /\ (S k < length ls -> length l = size)) ->
  concat ls !! i = ls !! (i / size) ≫= (fun l => l !! (i mod size)).
Proof.
  intros Hsize. revert i. induction ls as [| l rest IH]; intros i Hls.
  - reflexivity.
  - simpl concat. destruct (Hls 0 l eq_refl) as [Hle Hfull].
    destruct (decide (i < size)) as [Hi | Hi].
    + rewrite Nat.div_small, Nat.mod_small by lia. simpl.
      destruct (decide (i < length l)) as [Hil | Hil].
      * apply lookup_app_l, Hil.
      * rewrite lookup_app_r by lia.
        destruct rest as [| l' rest'].
        -- simpl. rewrite lookup_nil. symmetry. apply lookup_ge_None. lia.
        -- simpl in Hfull. lia.
    + destruct rest as [| l' rest'].
      * simpl. rewrite app_nil_r.
        assert (Hq : 1 <= i / size) by (apply Nat.div_le_lower_bound; lia).
        destruct (i / size) as [| q] eqn:Hdiv; [lia |]. simpl.
        apply lookup_ge_None. lia.
      * assert (Hlen : length l = size) by (apply Hfull; simpl; lia).
        rewrite lookup_app_r by lia. rewrite Hlen.
        rewrite IH.
        2:{ intros k l0 Hk. destruct (Hls (S k) l0 Hk) as [Hle' Hfull'].
            split; [exact Hle' |]. intros Hlast. apply Hfull'. simpl in *. lia. }
        assert (Hd : i / size = S ((i - size) / size)).
        { replace i with ((i - size) + 1 * size) at 1 by lia.
          rewrite Nat.div_add by lia. lia. }
        assert (Hm : i mod size = (i - size) mod size).
        { replace i with ((i - size) + 1 * size) at 1 by lia.
          apply Nat.Div0.mod_add. }
        rewrite Hd, Hm. reflexivity.
Qed.

(** *** One decision per profile on every path *)

Lemma binary_b2z (b : bool) : binary (Z.b2z b).
Proof. destruct b; [right | left]; reflexivity. Qed.

Lemma binary_coerce (x : Z) : binary (coerce_decision x).
Proof. unfold coerce_decision. destruct (x =? 0)%Z; [left | right]; reflexivity. Qed.

Lemma mock_predictions_binary (ad_text : string) (chunk : list Profile) :
  Forall binary (mock_predictions ad_text chunk).
Proof.
  unfold mock_predictions. apply Forall_map, Forall_forall. intros p _. apply binary_b2z.
Qed.

Lemma parse_binary (content : option string) (chunk : list Profile)
    (ad_text label : string) :
  Forall binary (value (_parse_and_validate_response content chunk ad_text label)).
Proof.
  unfold _parse_and_validate_response.
  destruct (content ≫= locate_array) as [arr |]; simpl.
  - apply Forall_app. split.
    + apply Forall_take, Forall_map, Forall_forall. intros x _. apply binary_coerce.
    + apply Forall_drop, mock_predictions_binary.
  - apply mock_predictions_binary.
Qed.

(** Whatever holds of the Mock Oracle's answer and of every parsed answer
    holds of the value a path returns. *)
Lemma run_value_cases (P : list Z -> Prop) (v : Variant) (w : World) (self : Client)
    (ad_text : string) (chunk : list Profile) (ad_platform : string) :
  P (mock_predictions ad_text chunk) ->
  (forall content label, P (value (_parse_and_validate_response content chunk ad_text label))) ->
  P (value (run v w self ad_text chunk ad_platform)).
Proof.
  intros Hmock Hparse.
  destruct v; simpl;
    unfold DeepSeekClient.predict_chunk, DeepSeekClient.predict_chunk_async,
      OpenAIClient.predict_chunk, OpenAIClient.predict_chunk_async, _fallback_to_mock;
    eff_unfold; path_cases; try exact Hmock;
    match goal with
    | H : _parse_and_validate_response ?c _ _ ?lbl = (?l, _) |- P ?l =>
        specialize (Hparse c lbl); rewrite H in Hparse; exact Hparse
    end.
Qed.

Lemma run_length (v : Variant) (w : World) (self : Client)
    (ad_text : string) (chunk : list Profile) (ad_platform : string) :
  length (value (run v w self ad_text chunk ad_platform)) = length chunk.
Proof.
  apply run_value_cases.
  - apply length_mock_predictions.
  - intros content label. apply parse_length.
Qed.

Lemma run_binary (v : Variant) (w : World) (self : Client)
    (ad_text : string) (chunk : list Profile) (ad_platform : string) :
  Forall binary (value (run v w self ad_text chunk ad_platform)).
Proof.
  apply run_value_cases.
  - apply mock_predictions_binary.
  - intros content label. apply parse_binary.
Qed.


Lemma batch_decisions_selected (w : World) (p : Predictor) (ad_text ad_platform : string)
    (chunk : list Profile) :
  batch_decisions w p ad_text ad_platform chunk
  = if use_mock p then mock_predictions ad_text chunk
    else value (run (selected p) w (make_client w p) ad_text chunk ad_platform).
Proof.
  unfold batch_decisions, selected, chunk_async, chunk_sync.
  destruct (use_mock p), (use_async p), (provider p); reflexivity.
Qed.

Lemma batch_decisions_length (w : World) (p : Predictor) (ad_text ad_platform : string)
    (chunk : list Profile) :
  length (batch_decisions w p ad_text ad_platform chunk) = length chunk.
Proof.
  rewrite batch_decisions_selected. destruct (use_mock p).
  - apply length_mock_predictions.
  - apply run_length.
Qed.

Lemma batch_decisions_binary (w : World) (p : Predictor) (ad_text ad_platform : string)
    (chunk : list Profile) :
  Forall binary (batch_decisions w p ad_text ad_platform chunk).
Proof.
  rewrite batch_decisions_selected. destruct (use_mock p).
  - apply mock_predictions_binary.
  - apply run_binary.
Qed.

(** *** The two execution modes *)

Lemma run_sequential_value (f : list Profile -> Eff (list Z)) (bs : list (list Profile)) :
  value (run_sequential f bs) = concat (map (fun b => value (f b)) bs).
Proof.
  induction bs as [| b rest IH]; [reflexivity |].
  simpl. unfold EffMonad.bind, EffMonad.ret.
  destruct (f b) as [r t1]. destruct (run_sequential f rest) as [rs t2].
  simpl in *. f_equal. exact IH.
Qed.

(** A task that has not finished leaves its slot of the store untouched. *)
Lemma store_untouched (tasks : list (Eff (list Z))) (completion : list nat)
    (store : gmap nat (list Z)) (i : nat) :
  i ∉ completion ->
  foldl (complete tasks) store completion !! i = store !! i.
Proof.
  revert store. induction completion as [| j rest IH]; intros store Hi; [reflexivity |].
  simpl. apply not_elem_of_cons in Hi as [Hij Hrest].
  rewrite IH by exact Hrest. unfold complete.
  destruct (tasks !! j); [| reflexivity].
  apply lookup_insert_ne. congruence.
Qed.

(** A task that has finished has its own result in its own slot, however
    many other tasks finished before or after it. *)
Lemma store_finished (tasks : list (Eff (list Z))) (completion : list nat)
    (store : gmap nat (list Z)) (i : nat) (t : Eff (list Z)) :
  i ∈ completion ->
  tasks !! i = Some t ->
  foldl (complete tasks) store completion !! i = Some (value t).
Proof.
  revert store. induction completion as [| j rest IH]; intros store Hi Ht.
  - apply elem_of_nil in Hi. contradiction.
  - simpl. destruct (decide (i ∈ rest)) as [Hrest | Hrest].
    + apply IH; assumption.
    + apply elem_of_cons in Hi as [-> | Hi]; [| contradiction].
      rewrite store_untouched by exact Hrest.
      unfold complete. rewrite Ht. apply lookup_insert_eq.
Qed.

Lemma join_all_finished (tasks : list (Eff (list Z))) (store : gmap nat (list Z)) :
  (forall i t, tasks !! i = Some t -> store !! i = Some (value t)) ->
  join store (length tasks) = concat (map value tasks).
Proof.
  intros Hstore. unfold join. f_equal.
  apply list_eq. intros i. rewrite !list_lookup_fmap.
  destruct (tasks !! i) as [t |] eqn:Ht.
  - rewrite lookup_seq_lt by (apply lookup_lt_Some in Ht; exact Ht).
    simpl. rewrite (Hstore i t Ht). reflexivity.
  - rewrite lookup_seq_ge by (apply lookup_ge_None in Ht; exact Ht). reflexivity.
Qed.

(** The join is by batch index: any completion order gives the results in
    batch order. *)
Lemma run_concurrent_value (f : list Profile -> Eff (list Z)) (bs : list (list Profile))
    (completion : list nat) :
  completion ≡ₚ seq 0 (length bs) ->
  value (run_concurrent f bs completion) = concat (map (fun b => value (f b)) bs).
Proof.
  intros Hperm. unfold run_concurrent, value at 1. simpl.
  rewrite join_all_finished.
  - rewrite map_map. reflexivity.
  - intros i t Ht. apply store_finished; [| exact Ht].
    rewrite Hperm. apply elem_of_seq. apply lookup_lt_Some in Ht.
    rewrite length_map in Ht. lia.
Qed.

Lemma length_concat_pointwise {A : Type} (g : list A -> list Z) (bs : list (list A)) :
  Forall (fun b => length (g b) = length b) bs ->
  length (concat (map g bs)) = length (concat bs).
Proof.
  induction 1 as [| b rest Hb _ IH]; [reflexivity |].
  simpl. rewrite !length_app, Hb, IH. reflexivity.
Qed.

(** C2: for a positive [batch_size], in mock, sequential and concurrent
    mode (whatever the order in which the concurrent batches finish) and
    whatever the vendor does, [predict_clicks] returns one decision per
    profile: the vector has the population's length, every entry is 0 or
    1, and it is the concatenation, in batch order, of each batch's
    decisions, the batches being consecutive slices of the population.
    Position [i] of the vector is thus position [i mod size] of the
    decisions of batch [i / size], where profile [i] sits at the same
    position. *)
Theorem predict_clicks_one_decision_per_profile (w : World) (p : Predictor)
    (completion : list nat) (ad_text : string) (population : list Profile)
    (ad_platform : string) :
  let size := Z.to_nat (batch_size p) in
  let out := value (predict_clicks w p completion ad_text population ad_platform) in
  (0 < batch_size p)%Z ->
  (use_mock p = false -> use_async p = true ->
     completion ≡ₚ seq 0 (length (batches size population))) ->
  length out = length population
  /\ Forall binary out
  /\ concat (batches size population) = population
  /\ out = concat (map (batch_decisions w p ad_text ad_platform) (batches size population))
  /\ Forall (fun b => length (batch_decisions w p ad_text ad_platform b) = length b)
            (batches size population)
  /\ (forall i,
        population !! i
          = batches size population !! (i / size) ≫= (fun b => b !! (i mod size))
        /\ out !! i
          = batches size population !! (i / size)
              ≫= (fun b => batch_decisions w p ad_text ad_platform b !! (i mod size))).
Proof.
  intros size out Hsize Hperm.
  assert (Hpos : 0 < size) by (subst size; lia).
  pose proof (batches_concat size population Hpos) as Hconcat.
  assert (Hout : out = concat (map (batch_decisions w p ad_text ad_platform)
                                   (batches size population))).
  { subst out. unfold predict_clicks, batch_decisions. fold size.
    destruct (use_mock p) eqn:Hmock; [reflexivity |].
    destruct (use_async p) eqn:Hasync.
    - apply run_concurrent_value, Hperm; reflexivity.
    - apply run_sequential_value. }
  assert (Hlens : Forall (fun b => length (batch_decisions w p ad_text ad_platform b) = length b)
                         (batches size population)).
  { apply Forall_forall. intros b _. apply batch_decisions_length. }
  assert (Hlen : length out = length population).
  { rewrite Hout. rewrite <- Hconcat at 2.
    apply length_concat_pointwise, Hlens. }
  split; [exact Hlen |]. split.
  { rewrite Hout. apply Forall_concat, Forall_map, Forall_forall.
    intros b _. apply batch_decisions_binary. }
  split; [exact Hconcat |]. split; [exact Hout |]. split; [exact Hlens |].
  intros i. split.
  - rewrite <- Hconcat at 1. apply lookup_concat_chunks; [exact Hpos |].
    intros k b Hb. apply (batches_full size population k b Hpos Hb).
  - rewrite Hout. rewrite lookup_concat_chunks with (size := size); [| exact Hpos |].
    + rewrite list_lookup_fmap.
      destruct (batches size population !! (i / size)); reflexivity.
    + intros k l Hl. rewrite list_lookup_fmap in Hl.
      destruct (batches size population !! k) as [b |] eqn:Hb; [| discriminate].
      simpl in Hl. injection Hl as <-.
      rewrite batch_decisions_length, length_map.
      apply (batches_full size population k b Hpos Hb).
Qed.

End OrchestratorProperties.

(** ** api.py *)


Section ApiProperties.
Context {F : Type} {PF : PyFloat F} {PI : PyFloatOfInt F} {PRd : PyRound F}.
Import Api.

Lemma py_in_spec (x : string) (xs : list string) : py_in x xs = true <-> In x xs.
Proof.
  unfold py_in. rewrite existsb_exists. split.
  - intros (y & Hy & Heq). apply String.eqb_eq in Heq. subst. exact Hy.
  - intros Hx. exists x. split; [exact Hx | apply String.eqb_refl].
Qed.

Lemma sum_of_ones {A : Type} (l : list A) (acc : Z) :
  fold_left Z.add (map (fun _ => 1%Z) l) acc = (acc + Z.of_nat (length l))%Z.
Proof.
  revert acc. induction l as [| x rest IH]; intros acc; simpl fold_left.
  - simpl. lia.
  - rewrite IH. simpl length. lia.
Qed.

Lemma count_clicks_spec (clicks : list Z) :
  count_clicks clicks = Z.of_nat (length (List.filter truthy_int clicks)).
Proof. unfold count_clicks. rewrite sum_of_ones. lia. Qed.

(** C8: [compute_ctr] returns, without raising, the number of truthy
    entries divided by the length of the list, and 0.0 for the empty
    list: the guard keeps the division away from a zero divisor. *)
Theorem compute_ctr_is_click_fraction (clicks : list Z) :
  compute_ctr clicks
  = match clicks with
    | [] => Return (f_of_Z 0)
    | _ :: _ =>
        Return (fdiv (f_of_Z (Z.of_nat (length (List.filter truthy_int clicks))))
                     (f_of_Z (Z.of_nat (length clicks))))
    end.
Proof using PI.
  destruct clicks as [| c rest]; [reflexivity |].
  unfold compute_ctr, py_truediv.
  rewrite fis_zero_of_Z by (simpl length; lia).
  rewrite count_clicks_spec. reflexivity.
Qed.

Lemma validate_request_cases (request : CTRRequest) :
  (valid_choice request /\ validate_request request = Return tt)
  \/ (~ valid_choice request
      /\ exists detail, validate_request request = Raise (HTTPException 400 detail)).
Proof.
  unfold validate_request, valid_choice.
  destruct (py_in (ad_platform request) AVAILABLE_PLATFORMS) eqn:Hplat;
    destruct (py_in (provider request) AVAILABLE_PROVIDERS) eqn:Hprov;
    cbn [negb].
  - left. split; [| reflexivity]. split; apply py_in_spec; assumption.
  - right. split; [| eexists; reflexivity].
    intros [_ Hin]. apply py_in_spec in Hin. congruence.
  - right. split; [| eexists; reflexivity].
    intros [Hin _]. apply py_in_spec in Hin. congruence.
  - right. split; [| eexists; reflexivity].
    intros [Hin _]. apply py_in_spec in Hin. congruence.
Qed.

(** C6, as amended: [validate_request] raises, with status 400, exactly
    when the platform or the provider is not an available one, and raises
    nothing otherwise.  [predict_ctr] rejects such a request with that 400
    before calling any collaborator.  The converse needs one more case: a
    request is rejected with a 400 before the bank is loaded, and so before
    any sampling or prediction, exactly when its platform or provider is
    invalid or its identity bank file does not exist. *)
Theorem predict_ctr_rejects_before_work (sv : Services F) (request : CTRRequest)
    (include_details : bool) :
  (validate_request request = Return tt <-> valid_choice request)
  /\ ((exists detail, validate_request request = Raise (HTTPException 400 detail))
      <-> ~ valid_choice request)
  /\ (~ valid_choice request ->
      rejected_before_work (predict_ctr sv request include_details))
  /\ (rejected_before_work (predict_ctr sv request include_details)
      <-> ~ valid_choice request \/ path_exists sv (bank_path request) = false).
Proof.
  pose proof (validate_request_cases request) as Hcases.
  assert (Hinvalid : ~ valid_choice request ->
                     rejected_before_work (predict_ctr sv request include_details)).
  { intros Hbad. destruct Hcases as [[Hok _] | [_ [detail Hraise]]]; [contradiction |].
    unfold predict_ctr. rewrite Hraise. exists detail. reflexivity. }
  split; [| split; [| split; [exact Hinvalid |]]].
  - destruct Hcases as [[Hok Hret] | [Hbad [detail Hraise]]].
    + split; intros _; assumption.
    + split; [intros Hret; congruence | intros Hok; contradiction].
  - destruct Hcases as [[Hok Hret] | [Hbad [detail Hraise]]].
    + split; [intros [detail Hraise]; congruence | intros Hbad; contradiction].
    + split; [intros _; exact Hbad | intros _; exists detail; exact Hraise].
  - split.
    + intros [detail Hrej].
      destruct Hcases as [[Hok Hret] | [Hbad _]]; [| left; exact Hbad].
      right. unfold predict_ctr in Hrej. rewrite Hret in Hrej. fold (bank_path request) in Hrej.
      destruct (path_exists sv (bank_path request)); [| reflexivity].
      simpl in Hrej.
      destruct (load_identity_bank sv (bank_path request)) as [bank | e]; [| discriminate].
      destruct (sample_identities sv (population_size request) bank (seed request))
        as [identities | e]; [| discriminate].
      destruct (predict_clicks sv _ (ad_text request) identities (ad_platform request))
        as [clicks | e]; [| discriminate].
      destruct (compute_ctr clicks); discriminate.
    + intros [Hbad | Hmissing]; [exact (Hinvalid Hbad) |].
      destruct Hcases as [[Hok Hret] | [Hbad _]]; [| exact (Hinvalid Hbad)].
      unfold predict_ctr. rewrite Hret. fold (bank_path request). rewrite Hmissing.
      eexists. reflexivity.
Qed.

End ApiProperties.

(** ** Runs on concrete inputs *)

Section ConcreteRuns.
Import BaseLLMClient QFloat Lcg.

(** C1: the claim fails on the OpenAI client.  With no [api_key]
    override and an empty environment, [has_api_key] is false, yet both
    OpenAI paths go on to build a vendor client.  When the SDK refuses to
    build one without a key, the batch is served by the Mock Oracle with
    the reason "OpenAI import failed" (asynchronous: "AsyncOpenAI import
    failed"), not "API key missing"; when the SDK builds one, the vendor
    is called and the decision returned is the vendor's.  The DeepSeek
    client, on the same input, returns the Mock Oracle's decision with the
    reason "DeepSeek API key missing" and does nothing else. *)
Theorem openai_without_credential_builds_client :
  has_api_key Demo.world_no_key Demo.openai = false
  /\ mock_predictions (B := Demo.env) "ad" [Demo.person 30] = [1%Z]
  /\ OpenAIClient.predict_chunk (B := Demo.env) Demo.world_no_key Demo.openai
       "ad" [Demo.person 30] "facebook"
     = ([1%Z], [EvNewClient (Demo.sdk false None); EvFallback "OpenAI import failed"])
  /\ OpenAIClient.predict_chunk_async (B := Demo.env) Demo.world_no_key Demo.openai
       "ad" [Demo.person 30] "facebook"
     = ([1%Z], [EvNewClient (Demo.sdk true None); EvFallback "AsyncOpenAI import failed"])
  /\ OpenAIClient.predict_chunk (B := Demo.env) Demo.world_no_key_lenient_sdk Demo.openai
       "ad" [Demo.person 30] "facebook"
     = ([0%Z],
        [EvNewClient (Demo.sdk false None);
         EvApiCall (Demo.sdk false None) (OpenAIClient.chat_call Demo.openai "facebook: ad")])
  /\ DeepSeekClient.predict_chunk (B := Demo.env) Demo.world_no_key
       (DeepSeekClient.__init__ Demo.world_no_key (Some "deepseek-chat") None)
       "ad" [Demo.person 30] "facebook"
     = ([1%Z], [EvFallback "DeepSeek API key missing"])
  /\ DeepSeekClient.predict_chunk_async (B := Demo.env) Demo.world_no_key
       (DeepSeekClient.__init__ Demo.world_no_key (Some "deepseek-chat") None)
       "ad" [Demo.person 30] "facebook"
     = ([1%Z], [EvFallback "DeepSeek API key missing"]).
Proof. repeat split; vm_compute; reflexivity. Qed.

(** C5: the claim fails on the OpenAI client's secondary call.  When the
    chat-completions call times out, the synchronous path issues
    [responses.create] with [model] and [input] only: no temperature is
    passed, so the vendor's default applies.  The chat-completions call
    before it carries temperature 0 and does not ask for streaming. *)
Theorem openai_responses_call_has_no_temperature :
  trace (OpenAIClient.predict_chunk (B := Demo.env) Demo.world_chat_down Demo.openai
           "ad" Demo.young "facebook")
    = [EvNewClient (Demo.sdk false (Some "sk-test"));
       EvApiCall (Demo.sdk false (Some "sk-test")) (OpenAIClient.chat_call Demo.openai "facebook: ad");
       EvApiCall (Demo.sdk false (Some "sk-test")) (OpenAIClient.responses_call Demo.openai "facebook: ad")]
  /\ kw_temperature (OpenAIClient.chat_call Demo.openai "facebook: ad") = Some 0%Q
  /\ kw_stream (OpenAIClient.chat_call Demo.openai "facebook: ad") = None
  /\ kw_temperature (OpenAIClient.responses_call Demo.openai "facebook: ad") = None
  /\ kw_stream (OpenAIClient.responses_call Demo.openai "facebook: ad") = None.
Proof. repeat split; vm_compute; reflexivity. Qed.

(** C3, counterexample: on OpenAI's synchronous path the chat-completions
    call raises (a timeout), and the batch is not served by the Mock
    Oracle: the decisions are those of the responses endpoint, [0; 0],
    where the Mock Oracle decides [1; 1], and no fallback is logged. *)
Lemma openai_sync_chat_failure_is_not_mock :
  api_call Demo.world_chat_down (Demo.sdk false (Some "sk-test"))
      (OpenAIClient.chat_call Demo.openai (_build_prompt (BaseEnv := Demo.env) "ad" Demo.young "facebook"))
    = Raise (OtherException "Request timed out.")
  /\ OpenAIClient.predict_chunk (B := Demo.env) Demo.world_chat_down Demo.openai
       "ad" Demo.young "facebook"
     = ([0%Z; 0%Z],
        [EvNewClient (Demo.sdk false (Some "sk-test"));
         EvApiCall (Demo.sdk false (Some "sk-test")) (OpenAIClient.chat_call Demo.openai "facebook: ad");
         EvApiCall (Demo.sdk false (Some "sk-test")) (OpenAIClient.responses_call Demo.openai "facebook: ad")])
  /\ mock_predictions (B := Demo.env) "ad" Demo.young = [1%Z; 1%Z].
Proof. repeat split; vm_compute; reflexivity. Qed.

(** C3, witness: every vendor call fails with a 503 on OpenAI's
    synchronous path. *)
Lemma vendor_failure_falls_back_to_mock_witness :
  run (B := Demo.env) OpenAISync Demo.world_vendor_down Demo.openai "ad" Demo.young "facebook"
    = ([1%Z; 1%Z],
       [EvNewClient (Demo.sdk false (Some "sk-test"));
        EvApiCall (Demo.sdk false (Some "sk-test")) (OpenAIClient.chat_call Demo.openai "facebook: ad");
        EvApiCall (Demo.sdk false (Some "sk-test")) (OpenAIClient.responses_call Demo.openai "facebook: ad");
        EvFallback "OpenAI API call failed"]).
Proof.
  refine (proj1 (vendor_failure_falls_back_to_mock (B := Demo.env) OpenAISync
                   Demo.world_vendor_down Demo.openai "ad" Demo.young "facebook" _ _ _)).
  - intros H. discriminate H.
  - reflexivity.
  - repeat constructor; eexists; reflexivity.
Defined.

(** C4, witness: chat completions time out, the responses endpoint answers. *)
Lemma openai_sync_tries_responses_before_mock_witness :
  exists rest,
    trace (OpenAIClient.predict_chunk (B := Demo.env) Demo.world_chat_down Demo.openai
             "ad" Demo.young "facebook")
      = EvNewClient (Demo.sdk false (Some "sk-test"))
          :: EvApiCall (Demo.sdk false (Some "sk-test"))
               (OpenAIClient.chat_call Demo.openai "facebook: ad")
          :: EvApiCall (Demo.sdk false (Some "sk-test"))
               (OpenAIClient.responses_call Demo.openai "facebook: ad")
          :: rest.
Proof.
  refine (proj1 (openai_sync_tries_responses_before_mock (B := Demo.env)
                   Demo.world_chat_down Demo.openai "ad" Demo.young "facebook"
                   (OtherException "Request timed out.") _ _)).
  - reflexivity.
  - reflexivity.
Defined.



(** C2, witness: five profiles in concurrent batches of two, the last
    batch finishing first. *)
Lemma predict_clicks_one_decision_per_profile_witness :
  length (value (LLMClickPredictor.predict_clicks (B := Demo.env) Demo.world_up
                   Demo.concurrent_deepseek [2; 0; 1]%nat "ad" Demo.crowd "facebook"))
  = length Demo.crowd.
Proof.
  refine (proj1 (predict_clicks_one_decision_per_profile (B := Demo.env) Demo.world_up
                   Demo.concurrent_deepseek [2; 0; 1]%nat "ad" Demo.crowd "facebook" _ _)).
  - reflexivity.
  - intros _ _. exact (Permutation_cons_app [0; 1]%nat [] 2%nat (Permutation_refl _)).
Defined.

(** The run of the witness: each batch keeps the first entries of the
    vendor's array, coerced to 0/1, and the batches are joined in batch
    order although they finished in the order 2, 0, 1. *)
Example predict_clicks_concurrent_run :
  LLMClickPredictor.batches 2 Demo.crowd
    = [[Demo.person 30; Demo.person 50]; [Demo.person 20; Demo.person 60]; [Demo.person 70]]
  /\ value (LLMClickPredictor.predict_clicks (B := Demo.env) Demo.world_up
              Demo.concurrent_deepseek [2; 0; 1]%nat "ad" Demo.crowd "facebook")
     = [1; 0; 1; 0; 1]%Z
  /\ value (LLMClickPredictor.predict_clicks (B := Demo.env) Demo.world_vendor_down
              Demo.concurrent_deepseek [2; 0; 1]%nat "ad" Demo.crowd "facebook")
     = [1; 0; 1; 0; 0]%Z.
Proof. repeat split; vm_compute; reflexivity. Qed.

(** C6, counterexample: the platform and the provider are available ones,
    the identity bank file does not exist, and [predict_ctr] rejects the
    request with an HTTP 400 error before any collaborator is called. *)
Lemma predict_ctr_rejects_valid_request_without_bank :
  valid_choice Demo.request
  /\ Api.validate_request Demo.request = Return tt
  /\ Api.predict_ctr (Demo.services Demo.world_up (fun _ => false)) Demo.request false
     = (Raise (HTTPException 400 "Identity bank file not found: data/identity_bank.json"), []).
Proof.
  split; [| split].
  - split; simpl; auto.
  - reflexivity.
  - vm_compute. reflexivity.
Qed.

(** The same request with the bank file in place runs to a response. *)
Example predict_ctr_mock_run :
  exists response,
    Api.predict_ctr (Demo.services Demo.world_up (fun _ => true)) Demo.request false
      = (Return response,
         [Api.StepLoadBank "data/identity_bank.json";
          Api.StepSample 4 (Some 42%Z);
          Api.StepPredict {| Api.arg_provider := "openai";
                             Api.arg_model := "gpt-4o-mini";
                             Api.arg_batch_size := 3;
                             Api.arg_use_mock := true;
                             Api.arg_use_async := true;
                             Api.arg_api_key := None |}])
    /\ Api.total_identities response = 4%Z
    /\ Api.provider_used response = "mock".
Proof. eexists. vm_compute. repeat split; reflexivity. Qed.

(** C8, witness: on exact rationals, three truthy entries out of four. *)
Lemma compute_ctr_is_click_fraction_witness :
  Api.compute_ctr [1; 0; 1; 5]%Z = Return (fdiv (f_of_Z 3) (f_of_Z 4)).
Proof.
  exact (compute_ctr_is_click_fraction (F := Q) [1; 0; 1; 5]%Z).
Defined.

(** [compute_ctr] on exact rationals. *)
Example compute_ctr_three_of_four :
  Api.compute_ctr [1; 0; 1; 5]%Z = Return (3 # 4)
  /\ Api.compute_ctr [] = Return (0 # 1).
Proof. split; vm_compute; reflexivity. Qed.

(** On exact rationals the guard of [_weighted_choice] reads "the sum of
    the weights is not positive". *)
Lemma weighted_choice_guard_on_rationals (weights : list Q) :
  fle (fsum weights) (f_of_Z 0) = true
  <-> ~ (0 < QFloat.sum weights)%Q.
Proof.
  simpl. rewrite Qle_bool_iff. split.
  - intros Hle Hlt. exact (Qlt_not_le _ _ Hlt Hle).
  - apply Qnot_lt_le.
Qed.

(** [_weighted_choice] on exact rationals: equal weights, an empty list,
    weights that cancel out. *)
Example weighted_choice_runs :
  Sampler._weighted_choice [1 # 2; 1 # 2] 5%Z = Return (1%Z, 1222621274%Z)
  /\ Sampler._weighted_choice [] 5%Z
     = Raise (ValueError "Sum of weights must be positive")
  /\ Sampler._weighted_choice [1 # 2; - (1 # 2)] 5%Z
     = Raise (ValueError "Sum of weights must be positive").
Proof. repeat split; vm_compute; reflexivity. Qed.

(** [_weighted_choice] on binary64, with two non-negative weights whose
    sum overflows and a uniform draw of 0.0: the sum is [inf], so the
    guard passes; [r = 0.0 * inf] is not a number and compares below no
    partial sum; the loop ends without returning and the result is the
    last index. *)
Example weighted_choice_falls_through_on_overflow :
  let big := Binary64.of_Z (2 ^ 1023) in
  let zero := Binary64.of_Z 0 in
  fle (PyFloat := Binary64.Binary64_PyFloat) zero big = true
  /\ Sampler.weighted_loop (PF := Binary64.Binary64_PyFloat)
       (fmul (PyFloat := Binary64.Binary64_PyFloat) zero
             (fsum (PyFloat := Binary64.Binary64_PyFloat) [big; big]))
       zero 0 [big; big] = None
  /\ Sampler._weighted_choice (PF := Binary64.Binary64_PyFloat)
       (PR := Binary64.Replay_PyRandom) [big; big] [zero]
     = Return (1%Z, []).
Proof. repeat split; vm_compute; reflexivity. Qed.

End ConcreteRuns.

(* ===================================================================== *)
(** * Part III: further properties of the code                            *)
(* ===================================================================== *)

(** ** sampler.py: what the samplers return and when they raise *)

Section SamplerFurther.
Context {F : Type} {PF : PyFloat F} {PRd : PyRound F} {PR : PyRandom F}.
Import Sampler.

Lemma bind_Return {A B : Type} (m : Rand A) (k : A -> Rand B) (g g' : rng) (b : B) :
  bind m k g = Return (b, g') ->
  exists a g1, m g = Return (a, g1) /\ k a g1 = Return (b, g').
Proof.
  unfold bind. destruct (m g) as [[a g1] | e]; [| discriminate].
  intros H. exists a, g1. split; [reflexivity | exact H].
Qed.

Lemma bind_Raise_l {A B : Type} (m : Rand A) (k : A -> Rand B) (g : rng) (e : PyExn) :
  m g = Raise e -> bind m k g = Raise e.
Proof. unfold bind. intros ->. reflexivity. Qed.

Lemma ret_Return {A : Type} (a b : A) (g g' : rng) : ret a g = Return (b, g') -> a = b.
Proof. unfold ret. intros [= -> _]. reflexivity. Qed.

Lemma ret_Return_state {A : Type} (a b : A) (g g' : rng) :
  ret a g = Return (b, g') -> a = b /\ g = g'.
Proof. unfold ret. intros [= -> ->]. split; reflexivity. Qed.

Lemma py_index_In {A : Type} (l : list A) (i : Z) (x : A) :
  py_index l i = Return x -> In x l.
Proof.
  unfold py_index.
  destruct ((0 <=? _)%Z && _); [| discriminate].
  destruct (nth_error l _) as [y |] eqn:Hnth; [| discriminate].
  intros [= <-]. eapply nth_error_In, Hnth.
Qed.

Lemma lift_index_In {A : Type} (l : list A) (i : Z) (x : A) (g g' : rng) :
  lift (py_index l i) g = Return (x, g') -> In x l.
Proof.
  unfold lift. destruct (py_index l i) as [y |] eqn:Hidx; [| discriminate].
  intros [= <- _]. eapply py_index_In, Hidx.
Qed.

Lemma rng_choice_In {A : Type} (seq : list A) (x : A) (g g' : rng) :
  rng_choice seq g = Return (x, g') -> In x seq.
Proof.
  destruct seq as [| y rest]; [discriminate |].
  unfold rng_choice. intros H.
  apply bind_Return in H as (i & g1 & _ & H). eapply lift_index_In, H.
Qed.

Lemma sample_categorical_In (cfg : CategoricalCfg F) (v : string) (g g' : rng) :
  _sample_categorical cfg g = Return (v, g') -> In v (cat_values cfg).
Proof.
  unfold _sample_categorical.
  destruct (cat_values cfg) as [| v0 values]; [discriminate |].
  destruct (cat_probs cfg) as [probs |].
  - destruct (negb _); [discriminate |]. intros H.
    apply bind_Return in H as (i & g1 & _ & H). eapply lift_index_In, H.
  - apply rng_choice_In.
Qed.

(** X1: [_sample_categorical] returns one of the configured values.  It
    raises only a [ValueError]: for an empty list of values, for
    probabilities whose number differs from the number of values, or for
    probabilities whose sum fails the guard of [_weighted_choice]; it
    never raises an [IndexError]. *)
Theorem sample_categorical_member_or_value_error (cfg : CategoricalCfg F) (g : rng) :
  match _sample_categorical cfg g with
  | Return (v, _) => In v (cat_values cfg)
  | Raise e =>
      (cat_values cfg = [] /\ e = ValueError "categorical values empty")
      \/ (exists probs,
            cat_probs cfg = Some probs
            /\ length (cat_values cfg) <> length probs
            /\ e = ValueError "values and probs length mismatch")
      \/ (exists probs,
            cat_probs cfg = Some probs
            /\ fle (fsum probs) (f_of_Z 0) = true
            /\ e = ValueError "Sum of weights must be positive")
  end.
Proof.
  destruct (_sample_categorical cfg g) as [[v g'] | e] eqn:Hrun.
  - eapply sample_categorical_In, Hrun.
  - unfold _sample_categorical in Hrun.
    destruct (cat_values cfg) as [| v0 values] eqn:Hvalues.
    + left. injection Hrun as <-. split; reflexivity.
    + destruct (cat_probs cfg) as [probs |] eqn:Hprobs.
      * destruct (Nat.eqb (length (v0 :: values)) (length probs)) eqn:Hlen;
          cbn [negb] in Hrun; cbv beta iota in Hrun.
        -- right. right. exists probs.
           pose proof (weighted_choice_cases probs g) as Hcases.
           unfold bind in Hrun. cbv beta in Hrun.
           destruct (_weighted_choice probs g) as [[i g1] | e1].
           ++ destruct Hcases as (_ & Hrange & _).
              apply Nat.eqb_eq in Hlen. rewrite <- Hlen in Hrange.
              destruct (py_index_in_range (v0 :: values) i Hrange) as [x Hx].
              unfold lift in Hrun. rewrite Hx in Hrun. discriminate.
           ++ destruct Hcases as [-> Hguard]. injection Hrun as <-.
              split; [reflexivity | split; [exact Hguard | reflexivity]].
        -- right. left. exists probs. apply Nat.eqb_neq in Hlen.
           injection Hrun as <-. split; [reflexivity | split; [exact Hlen | reflexivity]].
      * destruct (rng_choice_returns (v0 :: values) ltac:(discriminate) g)
          as (x & g1 & Hx & _).
        rewrite Hx in Hrun. discriminate.
Qed.

(** *** Bounds of the truncated normal *)

Section Ordered.
Context {PO : PyFloatOrder F}.




End Ordered.

(** *** The fields of a sampled identity *)

Lemma bank_get_Return {A : Type} (o : option A) (key : string) (a : A) (g g' : rng) :
  bank_get o key g = Return (a, g') -> o = Some a /\ g' = g.
Proof.
  destruct o as [x |]; simpl; [| discriminate].
  unfold ret. intros [= -> ->]. split; reflexivity.
Qed.

Lemma sample_region_item (cfg : RegionCfg) (v : string) (g g' : rng) :
  _sample_region cfg g = Return (v, g') ->
  exists item, In item (region_values cfg) /\ v = region_string item.
Proof.
  unfold _sample_region.
  destruct (region_values cfg) as [| it items] eqn:Hvalues; [discriminate |].
  intros H. apply bind_Return in H as (item & g1 & Hchoice & H).
  apply rng_choice_In in Hchoice. exists item. split; [exact Hchoice |].
  unfold region_string. destruct (truthy_str (get_or (state item) ""));
    apply ret_Return in H; symmetry; exact H.
Qed.

Lemma sample_health_illness (cfg : HealthCfg F) (h : bool) (ill : option string)
    (g g' : rng) :
  _sample_health cfg g = Return ((h, ill), g') ->
  forall v, ill = Some v ->
    h = true /\ In v (h_values cfg) /\ str_lower v <> "none".
Proof.
  unfold _sample_health. intros H.
  apply bind_Return in H as (has & g1 & _ & H).
  destruct has.
  - destruct (List.filter _ (h_values cfg)) as [| v0 vs] eqn:Hfilter.
    + apply ret_Return in H. injection H as <- <-. discriminate.
    + apply bind_Return in H as (x & g2 & Hchoice & H).
      apply rng_choice_In in Hchoice. rewrite <- Hfilter in Hchoice.
      apply filter_In in Hchoice as [Hin Hnot].
      apply ret_Return in H. injection H as <- <-.
      intros v [= <-]. split; [reflexivity | split; [exact Hin |]].
      apply negb_true_iff in Hnot. apply String.eqb_neq. exact Hnot.
  - apply ret_Return in H. injection H as <- <-. discriminate.
Qed.

(** X3: every identity [sample_identity] returns is built from the bank:
    its gender and its occupation are among the configured values, its
    region is the string of one configured region entry, and an illness
    is present only together with a true [health_status]; it is then a
    non-empty configured illness other than "none" in any letter case. *)
Theorem sample_identity_fields (bank : Bank F) (g g' : rng) (ident : Identity F) :
  sample_identity bank g = Return (ident, g') ->
  (exists cfg, bank_gender bank = Some cfg /\ In (gender ident) (cat_values cfg))
  /\ (exists cfg, bank_occupation bank = Some cfg /\ In (occupation ident) (cat_values cfg))
  /\ (exists cfg item,
        bank_region bank = Some cfg /\ In item (region_values cfg)
        /\ region ident = region_string item)
  /\ (forall v, illness ident = Some v ->
        health_status ident = true
        /\ v <> ""
        /\ exists cfg, bank_health_status bank = Some cfg
                       /\ In v (h_values cfg) /\ str_lower v <> "none").
Proof.
  unfold sample_identity. intros H.
  apply bind_Return in H as (c1 & g1 & Hc1 & H). apply bank_get_Return in Hc1 as [Hc1 _].
  apply bind_Return in H as (v1 & g2 & Hv1 & H). apply sample_categorical_In in Hv1.
  apply bind_Return in H as (c2 & g3 & _ & H).
  apply bind_Return in H as (v2 & g4 & _ & H).
  apply bind_Return in H as (c3 & g5 & Hc3 & H). apply bank_get_Return in Hc3 as [Hc3 _].
  apply bind_Return in H as (v3 & g6 & Hv3 & H). apply sample_region_item in Hv3.
  apply bind_Return in H as (c4 & g7 & Hc4 & H). apply bank_get_Return in Hc4 as [Hc4 _].
  apply bind_Return in H as (v4 & g8 & Hv4 & H). apply sample_categorical_In in Hv4.
  apply bind_Return in H as (c5 & g9 & _ & H).
  apply bind_Return in H as (v5 & g10 & _ & H).
  apply bind_Return in H as (c6 & g11 & _ & H).
  apply bind_Return in H as (v6 & g12 & _ & H).
  apply bind_Return in H as (c7 & g13 & _ & H).
  apply bind_Return in H as (v7 & g14 & _ & H).
  apply bind_Return in H as (c8 & g15 & Hc8 & H). apply bank_get_Return in Hc8 as [Hc8 _].
  apply bind_Return in H as ([v8 ill] & g16 & Hhealth & H).
  apply ret_Return in H. subst ident. simpl.
  split; [exists c1; split; assumption |].
  split; [exists c4; split; assumption |].
  split.
  { destruct Hv3 as (item & Hin & ->). exists c3, item. repeat split; assumption. }
  intros v Hill.
  destruct (v8 && truthy_opt_str ill) eqn:Hcond; [| discriminate].
  apply andb_true_iff in Hcond as [-> Htruthy]. subst ill.
  destruct (sample_health_illness c8 true (Some v) g15 g16 Hhealth v eq_refl)
    as (_ & Hin & Hnone).
  split; [reflexivity |]. split.
  - intros ->. discriminate.
  - exists c8. repeat split; assumption.
Qed.

(** *** Growing the population *)

Lemma sample_loop_app (n m : nat) (bank : Bank F) (g g' : rng) (ids : list (Identity F)) :
  sample_loop (n + m) bank g = Return (ids, g') ->
  exists g1,
    sample_loop n bank g = Return (take n ids, g1)
    /\ sample_loop m bank g1 = Return (drop n ids, g').
Proof.
  revert g ids. induction n as [| n IH]; intros g ids H.
  - exists g. split; [reflexivity | exact H].
  - simpl in H.
    apply bind_Return in H as (ident & g1 & Hident & H).
    apply bind_Return in H as (rest & g2 & Hrest & H).
    apply ret_Return_state in H as [<- <-].
    destruct (IH g1 rest Hrest) as (g3 & Hn & Hm).
    exists g3. split; [| exact Hm].
    simpl. unfold bind. rewrite Hident, Hn. reflexivity.
Qed.

(** X4: asking for more identities keeps the ones already drawn.  When
    [sample_identities] returns for [n + m] and a given seed, it returns
    for [n] with the same seed (and the same entropy when the seed is
    [None]), and the result is the first [n] identities of the longer
    run. *)
Theorem sample_identities_prefix (n m : Z) (bank : Bank F) (seed : option Z)
    (entropy : Z) (ids : list (Identity F)) :
  (0 <= n)%Z ->
  (0 <= m)%Z ->
  sample_identities (n + m) bank seed entropy = Return ids ->
  sample_identities n bank seed entropy = Return (take (Z.to_nat n) ids).
Proof.
  intros Hn Hm. unfold sample_identities.
  rewrite Z2Nat.inj_add by assumption.
  destruct (sample_loop (Z.to_nat n + Z.to_nat m) bank (Random seed entropy))
    as [[ids' g'] |] eqn:Hrun; [| discriminate].
  intros [= <-].
  apply sample_loop_app in Hrun as (g1 & Hprefix & _).
  rewrite Hprefix. reflexivity.
Qed.

(** *** Incomplete banks and empty populations *)

Lemma sample_identity_needs_every_key (bank : Bank F) (g : rng) :
  bank_complete bank = false -> exists e, sample_identity bank g = Raise e.
Proof.
  intros Hmissing.
  destruct (sample_identity bank g) as [[ident g'] | e] eqn:Hrun; [| exists e; reflexivity].
  exfalso. unfold sample_identity in Hrun.
  repeat match type of Hrun with
         | bind _ _ _ = Return _ =>
             let H := fresh "Hstep" in
             apply bind_Return in Hrun as (? & ? & H & Hrun);
             try (apply bank_get_Return in H as [H _])
         end.
  unfold bank_complete in Hmissing.
  repeat match goal with
         | H : ?o = Some _ |- _ => rewrite H in Hmissing; clear H
         end.
  discriminate Hmissing.
Qed.

(** X5: for [n <= 0] [sample_identities] returns the empty list whatever
    the bank is; for [n >= 1] a bank that lacks one of the eight keys
    never yields a profile: the call raises. *)
Theorem sample_identities_empty_or_incomplete (n : Z) (bank : Bank F) (seed : option Z)
    (entropy : Z) :
  ((n <= 0)%Z -> sample_identities n bank seed entropy = Return [])
  /\ ((0 < n)%Z -> bank_complete bank = false ->
      exists e, sample_identities n bank seed entropy = Raise e).
Proof.
  unfold sample_identities. split.
  - intros Hn. replace (Z.to_nat n) with 0%nat by lia. reflexivity.
  - intros Hn Hmissing.
    destruct (Z.to_nat n) as [| k] eqn:Hk; [lia |].
    destruct (sample_identity_needs_every_key bank (Random seed entropy) Hmissing)
      as [e He].
    exists e. simpl. rewrite (bind_Raise_l _ _ _ _ He). reflexivity.
Qed.

End SamplerFurther.

(** ** The provider clients: reasons, calls, and the template *)

Section ClientFurther.
Context {B : BaseEnv}.
Import BaseLLMClient.

(** X6: a path attaches at most one reason to a batch.  When it attaches
    one, the reason is one of the path's four (three for OpenAI: there is
    no credential check), never "client init failed", and the whole batch
    is the Mock Oracle's: there is no partial retry. *)
Theorem fallback_is_single_and_total (v : Variant) (w : World) (self : Client)
    (ad_text : string) (chunk : list Profile) (ad_platform : string) :
  let r := run v w self ad_text chunk ad_platform in
  fallbacks (trace r) = []
  \/ exists reason,
       fallbacks (trace r) = [reason]
       /\ In reason (possible_reasons v)
       /\ value r = mock_predictions ad_text chunk.
Proof.
  destruct v; simpl;
    unfold DeepSeekClient.predict_chunk, DeepSeekClient.predict_chunk_async,
      OpenAIClient.predict_chunk, OpenAIClient.predict_chunk_async,
      _parse_and_validate_response, _fallback_to_mock;
    eff_unfold; path_cases;
    first [ left; reflexivity
          | right; eexists; split; [reflexivity | split; [simpl; tauto | reflexivity]] ].
Qed.

(** X7: no retries.  The vendor calls a path issues for a batch are an
    initial segment of its call sequence (one chat-completions call; for
    OpenAI's synchronous path the responses call after it), all on the
    one vendor client the path built, whose key is the [api_key] override
    when that is non-empty and the environment's otherwise.  A call is
    only issued after the client was built without error, and a further
    call only after the one before it raised. *)
Theorem vendor_calls_are_a_prefix (v : Variant) (w : World) (self : Client)
    (ad_text : string) (chunk : list Profile) (ad_platform : string) :
  let vc := vendor_client v w self in
  let calls := vendor_calls v self (_build_prompt ad_text chunk ad_platform) in
  let t := trace (run v w self ad_text chunk ad_platform) in
  exists k,
    api_calls t = map (pair vc) (take k calls)
    /\ (clients_built t = [] \/ clients_built t = [vc])
    /\ ((0 < k)%nat -> clients_built t = [vc] /\ sdk_new w vc = None)
    /\ (forall j c, (S j < k)%nat -> calls !! j = Some c ->
          exists e, api_call w vc c = Raise e).
Proof.
  destruct v; simpl;
    unfold DeepSeekClient.predict_chunk, DeepSeekClient.predict_chunk_async,
      OpenAIClient.predict_chunk, OpenAIClient.predict_chunk_async,
      _parse_and_validate_response, _fallback_to_mock;
    eff_unfold; path_cases;
    first
      [ exists 0%nat; split; [reflexivity |];
        split; [first [left; reflexivity | right; reflexivity] |];
        split; [intros Hk; lia | intros j c Hj; lia]
      | exists 1%nat; split; [reflexivity |];
        split; [right; reflexivity |];
        split; [intros _; split; [reflexivity | first [reflexivity | assumption]] | intros j c Hj; lia]
      | exists 2%nat; split; [reflexivity |];
        split; [right; reflexivity |];
        split; [intros _; split; [reflexivity | first [reflexivity | assumption]] |];
        intros j c Hj Hc; destruct j as [| j]; [| lia];
        simpl in Hc; injection Hc as <-; eexists; eassumption ].
Qed.

Lemma parse_value_any_label (content : option string) (chunk : list Profile)
    (ad_text label1 label2 : string) :
  value (_parse_and_validate_response content chunk ad_text label1)
  = value (_parse_and_validate_response content chunk ad_text label2).
Proof.
  unfold _parse_and_validate_response.
  destruct (content ≫= locate_array); reflexivity.
Qed.

(** X8: when the vendor treats the synchronous and the asynchronous
    client alike, DeepSeek's [predict_chunk] and [predict_chunk_async]
    return the same decisions for a batch; only the logged reasons carry
    different prefixes. *)
Theorem deepseek_sync_async_agree (w : World) (self : Client)
    (ad_text : string) (chunk : list Profile) (ad_platform : string) :
  async_blind w ->
  value (DeepSeekClient.predict_chunk w self ad_text chunk ad_platform)
  = value (DeepSeekClient.predict_chunk_async w self ad_text chunk ad_platform).
Proof.
  intros Hblind.
  destruct (Hblind (py_or (api_key self) (getenv w (env_key_name self))) (base_url self)
              (DeepSeekClient.chat_call self (_build_prompt ad_text chunk ad_platform)))
    as [Hsdk Hcall].
  unfold DeepSeekClient.predict_chunk, DeepSeekClient.predict_chunk_async.
  destruct (negb (has_api_key w self)); [reflexivity |].
  eff_unfold.
  destruct (sdk_new w {| vc_async := false |}) as [e1 |] eqn:Hsync;
    destruct (sdk_new w {| vc_async := true |}) as [e2 |] eqn:Hasync; simpl.
  - reflexivity.
  - destruct Hsdk as [_ Hsdk]. specialize (Hsdk eq_refl). discriminate.
  - destruct Hsdk as [Hsdk _]. specialize (Hsdk eq_refl). discriminate.
  - rewrite <- Hcall.
    destruct (api_call w {| vc_async := false |} _) as [content |]; simpl.
    + pose proof (parse_value_any_label content chunk ad_text "DeepSeek" "AsyncDeepSeek")
        as Hlabel.
      destruct (_parse_and_validate_response content chunk ad_text "DeepSeek").
      destruct (_parse_and_validate_response content chunk ad_text "AsyncDeepSeek").
      exact Hlabel.
    + reflexivity.
Qed.

(** X9: the template client as shipped never reaches a vendor: its
    [_get_client] raises [NotImplementedError], which is not an
    [ImportError].  Every batch is served by the Mock Oracle, no vendor
    client is built and no call is issued; the reason is "<provider> API
    key missing" without a credential and "<provider> client init failed"
    ("Async<provider> client init failed" on the asynchronous path) with
    one. *)
Theorem template_client_always_mock (w : World) (self : Client)
    (ad_text : string) (chunk : list Profile) (ad_platform : string) :
  TemplateClient.predict_chunk w self ad_text chunk ad_platform
    = (mock_predictions ad_text chunk,
       [EvFallback (if has_api_key w self
                    then provider_name self +:+ " client init failed"
                    else provider_name self +:+ " API key missing")])
  /\ TemplateClient.predict_chunk_async w self ad_text chunk ad_platform
    = (mock_predictions ad_text chunk,
       [EvFallback (if has_api_key w self
                    then "Async" +:+ provider_name self +:+ " client init failed"
                    else provider_name self +:+ " API key missing")]).
Proof.
  unfold TemplateClient.predict_chunk, TemplateClient.predict_chunk_async.
  destruct (has_api_key w self); split; reflexivity.
Qed.

End ClientFurther.

(** ** api.py: errors, steps, responses, and the batch endpoint *)

Section ApiFurther.
Context {F : Type} {PF : PyFloat F} {PRd : PyRound F}.
Import Api.

Lemma handlers_not_http (e : PyExn) :
  is_http e = false ->
  handlers e = HTTPException 500 ("Internal server error: " +:+ exn_str e).
Proof. destruct e; simpl; intros H; try reflexivity; discriminate. Qed.

Lemma get_default_model_truthy (provider : string) :
  truthy_str (get_default_model provider) = true.
Proof.
  unfold get_default_model.
  destruct (String.eqb provider "openai"); [reflexivity |].
  destruct (String.eqb provider "deepseek"); reflexivity.
Qed.

Lemma string_or_truthy (a : option string) (b : string) :
  truthy_str b = true -> truthy_str (string_or a b) = true.
Proof.
  intros Hb. unfold string_or. destruct a as [s |]; [| exact Hb].
  destruct (truthy_str s) eqn:Hs; [exact Hs | exact Hb].
Qed.

(** X10: whatever goes wrong, [predict_ctr] raises an [HTTPException].
    When the collaborators raise none of their own, the status is 400
    exactly for the rejections made before any collaborator is called,
    and otherwise 500 with the detail "Internal server error: " followed
    by the text of the collaborator's exception. *)
Theorem predict_ctr_errors_are_http (sv : Services F) (request : CTRRequest)
    (include_details : bool) (e : PyExn) (steps : list Step) :
  collaborators_raise_no_http sv ->
  predict_ctr sv request include_details = (Raise e, steps) ->
  (exists detail, e = HTTPException 400 detail /\ steps = [])
  \/ (exists msg,
        e = HTTPException 500 ("Internal server error: " +:+ msg) /\ steps <> []).
Proof.
  intros (Hload & Hsample & Hpredict). unfold predict_ctr.
  destruct (validate_request_cases request) as [[_ Hret] | [_ [detail Hraise]]].
  - rewrite Hret.
    destruct (path_exists sv _); simpl negb; cbv iota.
    + destruct (load_identity_bank sv _) as [bank | e1] eqn:H1.
      * destruct (sample_identities sv _ bank _) as [ids | e2] eqn:H2.
        -- destruct (predict_clicks sv _ _ ids _) as [clicks | e3] eqn:H3.
           ++ destruct clicks as [| c rest]; [discriminate |].
              unfold compute_ctr, py_truediv.
              destruct (fis_zero _); [| discriminate].
              intros [= <- <-]. right. eexists. split; [reflexivity | discriminate].
           ++ intros [= <- <-]. right. exists (exn_str e3).
              rewrite (handlers_not_http e3 (Hpredict _ _ _ _ _ H3)).
              split; [reflexivity | discriminate].
        -- intros [= <- <-]. right. exists (exn_str e2).
           rewrite (handlers_not_http e2 (Hsample _ _ _ _ H2)).
           split; [reflexivity | discriminate].
      * intros [= <- <-]. right. exists (exn_str e1).
        rewrite (handlers_not_http e1 (Hload _ _ H1)).
        split; [reflexivity | discriminate].
    + intros [= <- <-]. left. eexists. split; reflexivity.
  - rewrite Hraise. intros [= <- <-]. left. exists detail. split; reflexivity.
Qed.

(** X11: the collaborators are called in the order load, sample,
    predict, each at most once and with the request's own parameters: the
    calls made are an initial segment of the three planned ones.  So
    nothing is predicted for a population that was not sampled, and
    nothing is sampled from a bank that was not loaded.  The predictor is
    never given an empty model name. *)
Theorem predict_ctr_steps_in_order (sv : Services F) (request : CTRRequest)
    (include_details : bool) :
  (exists k, snd (predict_ctr sv request include_details)
             = take k (planned_steps request))
  /\ (forall args, In (StepPredict args) (planned_steps request) ->
        truthy_str (arg_model args) = true).
Proof.
  split.
  - unfold predict_ctr, planned_steps.
    destruct (validate_request request); [| exists 0%nat; reflexivity].
    destruct (path_exists sv _); simpl negb; cbv iota; [| exists 0%nat; reflexivity].
    destruct (load_identity_bank sv _) as [bank |]; [| exists 1%nat; reflexivity].
    destruct (sample_identities sv _ bank _) as [ids |]; [| exists 2%nat; reflexivity].
    destruct (predict_clicks sv _ _ ids _) as [clicks |]; [| exists 3%nat; reflexivity].
    destruct (compute_ctr clicks); exists 3%nat; reflexivity.
  - unfold planned_steps. intros args [H | [H | [H | []]]]; try discriminate.
    injection H as <-. simpl.
    apply string_or_truthy, get_default_model_truthy.
Qed.

(** X12: a response is only built after validation, so its fields are
    consistent with the request: all three collaborators were called, the
    platform reported is an available one, [provider_used] is "mock"
    exactly when the request forces the mock and is an available provider
    otherwise, the model reported is never empty, and the detailed rows
    are present exactly when they were asked for. *)
Theorem predict_ctr_response_consistent (sv : Services F) (request : CTRRequest)
    (include_details : bool) (r : CTRResponse F) (steps : list Step) :
  predict_ctr sv request include_details = (Return r, steps) ->
  success r = true
  /\ steps = planned_steps request
  /\ In (resp_ad_platform r) AVAILABLE_PLATFORMS
  /\ (provider_used r = "mock" <-> use_mock request = true)
  /\ (use_mock request = false -> In (provider_used r) AVAILABLE_PROVIDERS)
  /\ truthy_str (model_used r) = true
  /\ (is_Some (detailed_results r) <-> include_details = true).
Proof.
  unfold predict_ctr.
  destruct (validate_request_cases request) as [[[Hplat Hprov] Hret] | [_ [detail Hraise]]];
    [| rewrite Hraise; discriminate].
  rewrite Hret.
  destruct (path_exists sv _); simpl negb; cbv iota; [| discriminate].
  destruct (load_identity_bank sv _) as [bank |]; [| discriminate].
  destruct (sample_identities sv _ bank _) as [ids |]; [| discriminate].
  destruct (predict_clicks sv _ _ ids _) as [clicks |]; [| discriminate].
  destruct (compute_ctr clicks) as [c |]; [| discriminate].
  intros [= <- <-]. simpl.
  split; [reflexivity |]. split; [reflexivity |]. split; [exact Hplat |].
  split; [| split; [| split]].
  - destruct (use_mock request); split; try reflexivity; try discriminate.
    intros Hmock. exfalso. rewrite Hmock in Hprov.
    simpl in Hprov. destruct Hprov as [H | [H | []]]; discriminate.
  - intros ->. exact Hprov.
  - destruct (use_mock request); [reflexivity |].
    apply string_or_truthy, get_default_model_truthy.
  - destruct include_details; split; intros H; try reflexivity; try discriminate.
    + eexists. reflexivity.
    + destruct H as [x Hx]. discriminate.
Qed.

(** *** The batch endpoint *)

Section Batch.
Variable str_of_exn : PyExn -> string.

Lemma batch_loop (sv : Services F) (requests : list CTRRequest)
    (results : list (ApiBatch.BatchItem F)) (steps : list Step) :
  fold_left (ApiBatch.batch_step str_of_exn sv) requests (results, steps)
  = (results ++ map (batch_item str_of_exn sv) requests,
     steps ++ concat (map (fun req => snd (predict_ctr sv req false)) requests)).
Proof.
  revert results steps. induction requests as [| req rest IH]; intros results steps.
  - simpl. rewrite !app_nil_r. reflexivity.
  - simpl fold_left. simpl map. unfold batch_item at 1.
    destruct (predict_ctr sv req false) as [[result | e] s] eqn:Hrun;
      rewrite IH; simpl; rewrite <- !app_assoc; reflexivity.
Qed.

(** X13: [predict_ctr_batch] refuses more than ten requests with an HTTP
    400 error before working on any of them.  Up to ten requests are all
    processed, in order: the list returned has one entry per request, the
    entry of a request is its own response or its own error and does not
    depend on the other requests, and a request that fails does not stop
    the ones after it. *)
Theorem predict_ctr_batch_isolates_requests (sv : Services F)
    (requests : list CTRRequest) :
  ((10 < length requests)%nat ->
     ApiBatch.predict_ctr_batch str_of_exn sv requests
     = (Raise (HTTPException 400 "Batch size cannot exceed 10 requests"), []))
  /\ ((length requests <= 10)%nat ->
     ApiBatch.predict_ctr_batch str_of_exn sv requests
     = (Return (map (batch_item str_of_exn sv) requests),
        concat (map (fun req => snd (predict_ctr sv req false)) requests))).
Proof.
  unfold ApiBatch.predict_ctr_batch. split; intros Hlen.
  - apply Nat.ltb_lt in Hlen. rewrite Hlen. reflexivity.
  - apply Nat.ltb_ge in Hlen. rewrite Hlen. rewrite batch_loop. reflexivity.
Qed.

End Batch.

(** X14: the detailed rows pair profile [i] with click [i] under the id
    [i], counted from 0, and stop with the shorter of the two lists. *)
Theorem detail_rows_lookup (start : Z) (identities : list (Sampler.Identity F))
    (clicks : list Z) (i : nat) :
  detail_rows start identities clicks !! i
  = match identities !! i, clicks !! i with
    | Some p, Some c =>
        Some {| id := start + Z.of_nat i; profile := p; click_prediction := c |}
    | _, _ => None
    end.
Proof.
  revert start clicks i. induction identities as [| p ps IH]; intros start clicks i.
  - destruct clicks; reflexivity.
  - destruct clicks as [| c cs].
    + simpl. destruct ((p :: ps) !! i); reflexivity.
    + destruct i as [| i]; simpl.
      * rewrite Z.add_0_r. reflexivity.
      * rewrite IH. replace (start + 1 + Z.of_nat i)%Z with (start + Z.pos (Pos.of_succ_nat i))%Z
          by lia. reflexivity.
Qed.

End ApiFurther.

(** X15: on exact rationals the click-through rate is a proportion:
    [compute_ctr] returns a value between 0 and 1 for every list, also
    when the entries are not all 0 or 1. *)
Theorem compute_ctr_is_a_proportion (clicks : list Z) :
  exists q : Q,
    Api.compute_ctr (PF := QFloat.Q_PyFloat) clicks = Return q
    /\ (0 <= q <= 1)%Q.
Proof.
  destruct clicks as [| c rest].
  - exists (0 # 1). split; [reflexivity |]. split; discriminate.
  - unfold Api.compute_ctr, py_truediv.
    rewrite (fis_zero_of_Z (PyFloatOfInt := QFloat.Q_PyFloatOfInt)) by (simpl length; lia).
    rewrite count_clicks_spec.
    assert (Hk : (length (List.filter Api.truthy_int (c :: rest)) <= length (c :: rest))%nat)
      by apply filter_length_le.
    assert (Hn : (0 < length (c :: rest))%nat) by (simpl; lia).
    revert Hk Hn.
    generalize (length (List.filter Api.truthy_int (c :: rest))) (length (c :: rest)).
    intros k n Hk Hn.
    eexists. split; [reflexivity |].
    change (0 <= Qred (inject_Z (Z.of_nat k) / inject_Z (Z.of_nat n)) <= 1)%Q.
    rewrite Qred_correct.
    assert (Hpos : (0 < inject_Z (Z.of_nat n))%Q).
    { change 0%Q with (inject_Z 0). rewrite <- Zlt_Qlt. lia. }
    split.
    + apply Qle_shift_div_l; [exact Hpos |].
      rewrite Qmult_0_l. change 0%Q with (inject_Z 0). rewrite <- Zle_Qle. lia.
    + apply Qle_shift_div_r; [exact Hpos |].
      rewrite Qmult_1_l. rewrite <- Zle_Qle. lia.
Qed.

(** ** sampler.py: which index [_weighted_choice] selects *)

Section WeightedChoiceFurther.
Context {F : Type} {PF : PyFloat F} {PR : PyRandom F}.
Import Sampler.

(** The value of [upto] after the loop has added the weights at
    positions [0 .. m]. *)
Definition running_sum (weights : list F) (m : nat) : F :=
  fold_left fadd (take (S m) weights) (f_of_Z 0).

Lemma weighted_loop_first (r upto : F) (i : Z) (weights : list F) :
  match weighted_loop r upto i weights with
  | Some j =>
      exists k, j = (i + Z.of_nat k)%Z /\ (k < length weights)%nat
                /\ fle r (fold_left fadd (take (S k) weights) upto) = true
                /\ forall m, (m < k)%nat ->
                     fle r (fold_left fadd (take (S m) weights) upto) = false
  | None =>
      forall m, (m < length weights)%nat ->
        fle r (fold_left fadd (take (S m) weights) upto) = false
  end.
Proof.
  revert upto i. induction weights as [| w rest IH]; intros upto i.
  - simpl. intros m Hm. lia.
  - simpl weighted_loop. destruct (fle r (fadd upto w)) eqn:Hreach.
    + exists 0%nat. repeat split.
      * lia.
      * simpl. lia.
      * exact Hreach.
      * intros m Hm. lia.
    + specialize (IH (fadd upto w) (i + 1)%Z).
      destruct (weighted_loop r (fadd upto w) (i + 1) rest) as [j |].
      * destruct IH as (k & -> & Hk & Htrue & Hfalse).
        exists (S k). repeat split.
        -- lia.
        -- simpl. lia.
        -- exact Htrue.
        -- intros [| m] Hm; [exact Hreach | apply Hfalse; lia].
      * intros [| m] Hm; [exact Hreach | apply IH; simpl in Hm; lia].
Qed.

(** X19: the index [_weighted_choice] returns is the first position whose
    running sum of weights reaches [r = random() * total]; every earlier
    running sum is below [r].  When no running sum reaches [r], the index
    is the last one. *)
Theorem weighted_choice_first_reaching_index (weights : list F) (g g' : rng) (i : Z) :
  _weighted_choice weights g = Return (i, g') ->
  let r := fmul (fst (rng_random g)) (fsum weights) in
  (forall m, (Z.of_nat m < i)%Z -> fle r (running_sum weights m) = false)
  /\ (fle r (running_sum weights (Z.to_nat i)) = true
      \/ (i = (Z.of_nat (length weights) - 1)%Z
          /\ forall m, (m < length weights)%nat -> fle r (running_sum weights m) = false)).
Proof.
  unfold _weighted_choice, running_sum.
  destruct (fle (fsum weights) (f_of_Z 0)); [discriminate |].
  unfold bind, draw. destruct (rng_random g) as [u g1]. simpl fst.
  pose proof (weighted_loop_first (fmul u (fsum weights)) (f_of_Z 0) 0 weights) as Hloop.
  destruct (weighted_loop (fmul u (fsum weights)) (f_of_Z 0) 0 weights) as [j |].
  - destruct Hloop as (k & -> & Hk & Htrue & Hfalse).
    unfold ret. intros [= <- _]. simpl. split.
    + intros m Hm. apply Hfalse. lia.
    + left. replace (Z.to_nat (0 + Z.of_nat k)) with k by lia. exact Htrue.
  - unfold ret. intros [= <- _]. simpl. split.
    + intros m Hm. apply Hloop. lia.
    + right. split; [reflexivity | exact Hloop].
Qed.

End WeightedChoiceFurther.

(** ** Further runs on concrete inputs *)

Module FurtherDemo.
Import Sampler QFloat Lcg.

(** The demonstration bank without its ["age"] entry. *)
Definition bank_without_age : Bank Q := {|
  bank_gender := bank_gender Demo.bank;
  bank_age := None;
  bank_region := bank_region Demo.bank;
  bank_occupation := bank_occupation Demo.bank;
  bank_annual_salary := bank_annual_salary Demo.bank;
  bank_liability_status := bank_liability_status Demo.bank;
  bank_is_married := bank_is_married Demo.bank;
  bank_health_status := bank_health_status Demo.bank
|}.


(** Collaborators whose identity bank file exists and is not valid JSON. *)
Definition services_bad_bank : Api.Services Q := {|
  Api.path_exists := fun _ => true;
  Api.load_identity_bank := fun _ =>
    Raise (OtherException "Expecting value: line 1 column 1 (char 0)");
  Api.sample_identities := fun _ _ _ => Return [];
  Api.predict_clicks := fun _ _ _ _ => Return []
|}.

(** A second request, for a platform that is not available. *)
Definition request_bad_platform : Api.CTRRequest := {|
  Api.ad_text := "Eco-friendly cleaning products";
  Api.ad_platform := "myspace";
  Api.population_size := 50;
  Api.seed := Some 42%Z;
  Api.provider := "openai";
  Api.model := None;
  Api.batch_size := 50;
  Api.use_mock := true;
  Api.use_sync := false;
  Api.api_key := None;
  Api.identity_bank_path := None
|}.

End FurtherDemo.

Section FurtherRuns.
Import BaseLLMClient QFloat Lcg QFloatOrder.


(** X3, witness: an identity drawn from the demonstration bank. *)
Lemma sample_identity_fields_witness :
  exists ident g',
    Sampler.sample_identity Demo.bank 42%Z = Return (ident, g')
    /\ exists cfg, Sampler.bank_gender Demo.bank = Some cfg
                   /\ In (Sampler.gender ident) (Sampler.cat_values cfg).
Proof.
  destruct (Sampler.sample_identity (PR := Lcg_PyRandom) Demo.bank 42%Z)
    as [[ident g'] | e] eqn:Hrun.
  - exists ident, g'. split; [reflexivity |].
    exact (proj1 (sample_identity_fields (PR := Lcg_PyRandom) Demo.bank 42%Z g' ident Hrun)).
  - vm_compute in Hrun. discriminate Hrun.
Defined.

(** X4, witness: one identity, then two, with the seed 42. *)
Lemma sample_identities_prefix_witness :
  exists ids,
    Sampler.sample_identities (1 + 1) Demo.bank (Some 42%Z) 0 = Return ids
    /\ Sampler.sample_identities 1 Demo.bank (Some 42%Z) 0 = Return (take 1 ids).
Proof.
  destruct (Sampler.sample_identities (1 + 1) Demo.bank (Some 42%Z) 0)
    as [ids | e] eqn:Hrun.
  - exists ids. split; [reflexivity |].
    exact (sample_identities_prefix 1 1 Demo.bank (Some 42%Z) 0 ids
             (Zle_bool_imp_le 0 1 eq_refl) (Zle_bool_imp_le 0 1 eq_refl) Hrun).
  - vm_compute in Hrun. discriminate Hrun.
Defined.

(** X5, witness: no identity asked for, and a bank without ["age"]. *)
Lemma sample_identities_empty_or_incomplete_witness :
  Sampler.sample_identities 0 FurtherDemo.bank_without_age (Some 42%Z) 0 = Return []
  /\ exists e,
       Sampler.sample_identities 3 FurtherDemo.bank_without_age (Some 42%Z) 0 = Raise e.
Proof.
  split.
  - exact (proj1 (sample_identities_empty_or_incomplete 0 FurtherDemo.bank_without_age
                    (Some 42%Z) 0) (Zle_bool_imp_le 0 0 eq_refl)).
  - exact (proj2 (sample_identities_empty_or_incomplete 3 FurtherDemo.bank_without_age
                    (Some 42%Z) 0) eq_refl eq_refl).
Defined.

(** The run behind the witness: the missing key is reported. *)
Example sample_identities_without_age :
  Sampler.sample_identities 3 FurtherDemo.bank_without_age (Some 42%Z) 0
  = Raise (KeyError "age").
Proof. vm_compute. reflexivity. Qed.

Lemma world_up_async_blind : async_blind Demo.world_up.
Proof. intros key url c. split; [split; intros _; reflexivity | reflexivity]. Defined.

(** X8, witness: a vendor that answers both kinds of client alike. *)
Lemma deepseek_sync_async_agree_witness :
  value (DeepSeekClient.predict_chunk (B := Demo.env) Demo.world_up
           (DeepSeekClient.__init__ Demo.world_up None None) "ad" Demo.young "facebook")
  = value (DeepSeekClient.predict_chunk_async (B := Demo.env) Demo.world_up
             (DeepSeekClient.__init__ Demo.world_up None None) "ad" Demo.young "facebook").
Proof.
  exact (deepseek_sync_async_agree (B := Demo.env) Demo.world_up
           (DeepSeekClient.__init__ Demo.world_up None None) "ad" Demo.young "facebook"
           world_up_async_blind).
Defined.

(** On OpenAI the two paths differ when only chat completions fail: the
    synchronous path uses the answer of the responses endpoint, the
    asynchronous one the Mock Oracle. *)
Example openai_sync_async_differ :
  value (OpenAIClient.predict_chunk (B := Demo.env) Demo.world_chat_down Demo.openai
           "ad" Demo.young "facebook") = [0; 0]%Z
  /\ value (OpenAIClient.predict_chunk_async (B := Demo.env) Demo.world_chat_down Demo.openai
              "ad" Demo.young "facebook") = [1; 1]%Z.
Proof. split; vm_compute; reflexivity. Qed.

(** X17, witness: the DeepSeek client without any credential. *)
Lemma deepseek_missing_key_falls_back_witness :
  DeepSeekClient.predict_chunk (B := Demo.env) Demo.world_no_key
    (DeepSeekClient.__init__ Demo.world_no_key None None) "ad" Demo.young "facebook"
  = (mock_predictions (B := Demo.env) "ad" Demo.young,
     [EvFallback "DeepSeek API key missing"]).
Proof.
  exact (proj1 (deepseek_missing_key_falls_back (B := Demo.env) Demo.world_no_key
                  (DeepSeekClient.__init__ Demo.world_no_key None None)
                  "ad" Demo.young "facebook" eq_refl)).
Defined.

Lemma services_bad_bank_no_http : collaborators_raise_no_http FurtherDemo.services_bad_bank.
Proof.
  split; [| split].
  - intros path e [= <-]. reflexivity.
  - intros n bank seed e H. discriminate H.
  - intros args ad ids platform e H. discriminate H.
Defined.

(** X10, witness: a bank file that is not valid JSON gives a 500. *)
Lemma predict_ctr_errors_are_http_witness :
  (exists detail,
      HTTPException 500 "Internal server error: Expecting value: line 1 column 1 (char 0)"
      = HTTPException 400 detail
      /\ [Api.StepLoadBank "data/identity_bank.json"] = [])
  \/ (exists msg,
        HTTPException 500 "Internal server error: Expecting value: line 1 column 1 (char 0)"
        = HTTPException 500 ("Internal server error: " +:+ msg)
        /\ [Api.StepLoadBank "data/identity_bank.json"] <> []).
Proof.
  exact (predict_ctr_errors_are_http FurtherDemo.services_bad_bank Demo.request false
           _ _ services_bad_bank_no_http eq_refl).
Defined.

(** X12, witness: the mock run of the demonstration request. *)
Lemma predict_ctr_response_consistent_witness :
  exists r steps,
    Api.predict_ctr (Demo.services Demo.world_up (fun _ => true)) Demo.request true
      = (Return r, steps)
    /\ Api.success r = true
    /\ steps = planned_steps Demo.request.
Proof.
  destruct (Api.predict_ctr (Demo.services Demo.world_up (fun _ => true)) Demo.request true)
    as [[r | e] steps] eqn:Hrun.
  - exists r, steps. split; [reflexivity |].
    destruct (predict_ctr_response_consistent _ _ _ _ _ Hrun) as (Hsuccess & Hsteps & _).
    split; assumption.
  - vm_compute in Hrun. discriminate Hrun.
Defined.

(** X13, witness: a batch of two requests, the second of which is
    rejected; the first still gets its response. *)
Lemma predict_ctr_batch_isolates_requests_witness :
  ApiBatch.predict_ctr_batch Api.exn_str (Demo.services Demo.world_up (fun _ => true))
    [Demo.request; FurtherDemo.request_bad_platform]
  = (Return (map (batch_item Api.exn_str (Demo.services Demo.world_up (fun _ => true)))
               [Demo.request; FurtherDemo.request_bad_platform]),
     concat (map (fun req =>
                    snd (Api.predict_ctr (Demo.services Demo.world_up (fun _ => true))
                           req false))
               [Demo.request; FurtherDemo.request_bad_platform])).
Proof.
  exact (proj2 (predict_ctr_batch_isolates_requests Api.exn_str
                  (Demo.services Demo.world_up (fun _ => true))
                  [Demo.request; FurtherDemo.request_bad_platform])
           ltac:(simpl; lia)).
Defined.

(** X19, witness: two equal weights on exact rationals. *)
Lemma weighted_choice_first_reaching_index_witness :
  (forall m, (Z.of_nat m < 1)%Z ->
     fle (fmul (fst (rng_random 5%Z)) (fsum [1 # 2; 1 # 2]))
         (running_sum [1 # 2; 1 # 2] m) = false)
  /\ (fle (fmul (fst (rng_random 5%Z)) (fsum [1 # 2; 1 # 2]))
          (running_sum [1 # 2; 1 # 2] (Z.to_nat 1)) = true
      \/ (1%Z = (Z.of_nat (length [1 # 2; 1 # 2]) - 1)%Z
          /\ forall m, (m < length [1 # 2; 1 # 2])%nat ->
               fle (fmul (fst (rng_random 5%Z)) (fsum [1 # 2; 1 # 2]))
                   (running_sum [1 # 2; 1 # 2] m) = false)).
Proof.
  exact (weighted_choice_first_reaching_index (PR := Lcg_PyRandom)
           [1 # 2; 1 # 2] 5%Z 1222621274%Z 1 eq_refl).
Defined.

End FurtherRuns.
